(** * wiki-craft: the browser client against its specification

    A shallow embedding of the TypeScript client of wiki-craft
    (types/api.ts, api/client.ts, api/search.ts, api/wiki.ts, the
    SearchFilters, SearchPage, UploadZone and WikiContent components) and
    the properties of the specification that this code decides.

    Conventions.
    - A JavaScript value is a [JsValue]; its numbers are kept abstract
      (class [JsNumber]): the code only tests them for truthiness and
      prints them with [String(n)].
    - A promise is its [Outcome]: the value it resolves to or the error it
      rejects with.
    - A JavaScript object read with [Object.entries] or by property name is
      the list of its own properties in enumeration order.
    - React state is passed explicitly: a handler maps the state it reads to
      the state it sets. *)

From Stdlib Require Import String Ascii List ZArith Bool Lia DecimalString.
Import ListNotations.
Set Warnings "-register-all".
Open Scope string_scope.
Open Scope list_scope.

(* ================================================================== *)
(** * JavaScript values                                                *)
(* ================================================================== *)

Module Js.

(** The three things the client does with a number: write a literal, test
    it in a condition, print it. *)
Class JsNumber (num : Type) := {
  num_of_Z : Z -> num;
  num_falsy : num -> bool;        (* +0, -0 and NaN *)
  num_toString : num -> string    (* Number.prototype.toString *)
}.

Inductive JsValue (num : Type) : Type :=
| JsUndefined
| JsNull
| JsBool (b : bool)
| JsNum (n : num)
| JsString (s : string)
| JsArray (items : list (JsValue num))
| JsObject (props : list (string * JsValue num)).

Arguments JsUndefined {num}.
Arguments JsNull {num}.
Arguments JsBool {num} b.
Arguments JsNum {num} n.
Arguments JsString {num} s.
Arguments JsArray {num} items.
Arguments JsObject {num} props.

(** [Array.prototype.join]. *)
Fixpoint join (sep : string) (parts : list string) : string :=
  match parts with
  | [] => ""
  | [p] => p
  | p :: rest => p ++ sep ++ join sep rest
  end.

Section Values.
Context {num : Type} `{JsNumber num}.

(** ToBoolean: the test behind [if (v)], [v || w] and [!!v]. *)
Definition truthy (v : JsValue num) : bool :=
  match v with
  | JsUndefined | JsNull => false
  | JsBool b => b
  | JsNum n => negb (num_falsy n)
  | JsString s => negb (s =? "")
  | JsArray _ | JsObject _ => true
  end.

(** [value !== undefined && value !== null]. *)
Definition is_present (v : JsValue num) : bool :=
  match v with
  | JsUndefined | JsNull => false
  | _ => true
  end.

(** [String(v)]: what [new Error(v)] and [URLSearchParams.append(k, v)] see.
    An array prints its elements joined by commas, with [null] and
    [undefined] elements printed as the empty string. *)
Fixpoint toString (v : JsValue num) : string :=
  match v with
  | JsUndefined => "undefined"
  | JsNull => "null"
  | JsBool true => "true"
  | JsBool false => "false"
  | JsNum n => num_toString n
  | JsString s => s
  | JsArray items =>
      join ","
        ((fix elements (l : list (JsValue num)) : list string :=
            match l with
            | [] => []
            | JsUndefined :: r => "" :: elements r
            | JsNull :: r => "" :: elements r
            | x :: r => toString x :: elements r
            end) items)
  | JsObject _ => "[object Object]"
  end.

(** Own property of an object, by name. *)
Fixpoint lookup (key : string) (props : list (string * JsValue num))
  : JsValue num :=
  match props with
  | [] => JsUndefined
  | (k, v) :: rest => if k =? key then v else lookup key rest
  end.

(** [v.key] for a key that no prototype defines ([detail], [message]):
    [None] is the TypeError of reading a property of [null] or
    [undefined]. *)
Definition get (v : JsValue num) (key : string) : option (JsValue num) :=
  match v with
  | JsUndefined | JsNull => None
  | JsObject props => Some (lookup key props)
  | _ => Some JsUndefined
  end.

End Values.

(** What a promise settles to. *)
Inductive JsError : Type :=
| ApiError (status : Z) (statusText : string) (message : string)
| Error (message : string)
| SyntaxError      (* response.json() on a body that is not JSON *)
| TypeError.       (* fetch: the network failed *)

Inductive Outcome (T : Type) : Type :=
| Resolved (v : T)
| Rejected (e : JsError).

Arguments Resolved {T} v.
Arguments Rejected {T} e.

Definition bind {A B : Type} (p : Outcome A) (k : A -> Outcome B) : Outcome B :=
  match p with
  | Resolved v => k v
  | Rejected e => Rejected e
  end.

End Js.

Import Js.

(** Integers as numbers, for concrete runs. *)
Definition Z_toString (z : Z) : string := NilZero.string_of_int (Z.to_int z).

#[export] Instance JsNumber_Z : JsNumber Z := {
  num_of_Z := fun z => z;
  num_falsy := fun z => Z.eqb z 0;
  num_toString := Z_toString
}.

(* ================================================================== *)
(** * types/api.ts: the wire contract                                  *)
(* ================================================================== *)

Module Api.

(** [type DocumentType = 'pdf' | 'docx' | 'xlsx' | 'markdown' | 'text' |
    'html' | 'epub' | 'unknown']. *)
Inductive DocumentType : Type :=
| pdf | docx | xlsx | markdown | text | html | epub | unknown.

(** The string literal each member of the union is on the wire. *)
Definition DocumentType_wire (t : DocumentType) : string :=
  match t with
  | pdf => "pdf"
  | docx => "docx"
  | xlsx => "xlsx"
  | markdown => "markdown"
  | text => "text"
  | html => "html"
  | epub => "epub"
  | unknown => "unknown"
  end.

Definition DocumentType_eq_dec (a b : DocumentType) : {a = b} + {a <> b}.
Proof. decide equality. Defined.

(** [interface IngestResponse]; [errors] is read with [?.] by its only
    consumer, so an absent list is [None]. *)
Record IngestResponse (num : Type) : Type := {
  ingest_document_id : string;
  ingest_filename : string;
  ingest_document_type : DocumentType;
  ingest_chunks_created : num;
  ingest_status : string;
  ingest_errors : option (list string)
}.

Arguments ingest_document_id {num} _.
Arguments ingest_filename {num} _.
Arguments ingest_document_type {num} _.
Arguments ingest_chunks_created {num} _.
Arguments ingest_status {num} _.
Arguments ingest_errors {num} _.

(** [interface SearchQuery]: every field but [query] is optional. *)
Record SearchQuery (num : Type) : Type := {
  sq_query : string;
  sq_limit : option num;
  sq_min_score : option num;
  sq_document_ids : option (list string);
  sq_document_types : option (list DocumentType);
  sq_include_embeddings : option bool
}.

Arguments sq_query {num} _.
Arguments sq_limit {num} _.
Arguments sq_min_score {num} _.
Arguments sq_document_ids {num} _.
Arguments sq_document_types {num} _.
Arguments sq_include_embeddings {num} _.

(** [interface WikiSource]. *)
Record WikiSource (num : Type) : Type := {
  chunk_id : string;
  document_id : string;
  document_title : option string;
  source_path : string;
  page_number : option num;
  section : option string;
  relevance_score : num;
  excerpt : string
}.

Arguments chunk_id {num} _.
Arguments document_id {num} _.
Arguments document_title {num} _.
Arguments source_path {num} _.
Arguments page_number {num} _.
Arguments section {num} _.
Arguments relevance_score {num} _.
Arguments excerpt {num} _.

(** The property names of [interface WikiSource], in declaration order. *)
Definition WikiSource_fields : list string :=
  ["chunk_id"; "document_id"; "document_title"; "source_path";
   "page_number"; "section"; "relevance_score"; "excerpt"].

Definition nullable {num A : Type} (inj : A -> JsValue num) (o : option A)
  : JsValue num :=
  match o with
  | Some a => inj a
  | None => JsNull
  end.

(** A [WikiSource] as the JSON object that crosses the wire. *)
Definition WikiSource_toJson {num : Type} (w : WikiSource num)
  : list (string * JsValue num) :=
  [("chunk_id", JsString (chunk_id w));
   ("document_id", JsString (document_id w));
   ("document_title", nullable JsString (document_title w));
   ("source_path", JsString (source_path w));
   ("page_number", nullable JsNum (page_number w));
   ("section", nullable JsString (section w));
   ("relevance_score", JsNum (relevance_score w));
   ("excerpt", JsString (excerpt w))].

Definition as_string {num : Type} (v : JsValue num) : option string :=
  match v with JsString s => Some s | _ => None end.

Definition as_number {num : Type} (v : JsValue num) : option num :=
  match v with JsNum n => Some n | _ => None end.

Definition as_nullable {num A : Type} (prj : JsValue num -> option A)
  (v : JsValue num) : option (option A) :=
  match v with
  | JsNull => Some None
  | _ => option_map Some (prj v)
  end.

(** Reading the object back at the type the interface declares. *)
Definition WikiSource_ofJson {num : Type}
  (o : list (string * JsValue num)) : option (WikiSource num) :=
  match as_string (lookup "chunk_id" o),
        as_string (lookup "document_id" o),
        as_nullable as_string (lookup "document_title" o),
        as_string (lookup "source_path" o),
        as_nullable as_number (lookup "page_number" o),
        as_nullable as_string (lookup "section" o),
        as_number (lookup "relevance_score" o),
        as_string (lookup "excerpt" o) with
  | Some c, Some d, Some t, Some p, Some n, Some s, Some r, Some e =>
      Some {| chunk_id := c; document_id := d; document_title := t;
              source_path := p; page_number := n; section := s;
              relevance_score := r; excerpt := e |}
  | _, _, _, _, _, _, _, _ => None
  end.

(** [interface WikiSection]: a tree through [subsections]. *)
Inductive WikiSection (num : Type) : Type :=
  mkWikiSection (heading : string) (content : string)
    (sources : list (WikiSource num)) (confidence : num)
    (subsections : list (WikiSection num)).

Arguments mkWikiSection {num} heading content sources confidence subsections.

(** [interface WikiEntry]. *)
Record WikiEntry (num : Type) : Type := {
  entry_id : string;
  title : string;
  summary : string;
  sections : list (WikiSection num);
  all_sources : list (WikiSource num);
  generated_at : string;
  query : string
}.

Arguments entry_id {num} _.
Arguments title {num} _.
Arguments summary {num} _.
Arguments sections {num} _.
Arguments all_sources {num} _.
Arguments generated_at {num} _.
Arguments query {num} _.

(** ['markdown' | 'html' | 'json' | 'text']: the type of
    [WikiGenerateRequest.output_format] and of the [format] argument of
    [generateWikiSimple] and [useGenerateWikiSimple]. *)
Inductive OutputFormat : Type :=
| fmt_markdown | fmt_html | fmt_json | fmt_text.

Definition OutputFormat_wire (f : OutputFormat) : string :=
  match f with
  | fmt_markdown => "markdown"
  | fmt_html => "html"
  | fmt_json => "json"
  | fmt_text => "text"
  end.

(** The string literals of that union. *)
Definition OutputFormat_literals : list string :=
  ["markdown"; "html"; "json"; "text"].

(** [interface WikiGenerateRequest]. *)
Record WikiGenerateRequest (num : Type) : Type := {
  wg_query : string;
  wg_max_sources : option num;
  wg_output_format : option OutputFormat;
  wg_include_sources : option bool
}.

Arguments wg_query {num} _.
Arguments wg_max_sources {num} _.
Arguments wg_output_format {num} _.
Arguments wg_include_sources {num} _.

(** [interface WikiGenerateResponse]. *)
Record WikiGenerateResponse (num : Type) : Type := {
  wr_entry : WikiEntry num;
  wr_content : string;
  wr_format : string
}.

Arguments wr_entry {num} _.
Arguments wr_content {num} _.
Arguments wr_format {num} _.

End Api.

Import Api.

(* ================================================================== *)
(** * api/client.ts                                                    *)
(* ================================================================== *)

Module Client.

(** A [File] of the browser: the client reads its [name] and [size]. *)
Record File : Type := { file_name : string; file_size : Z }.

(** The [URL] object as the client uses it: a path on the page's own
    origin and the list [searchParams] that [append] extends at its end. *)
Record URL : Type := {
  pathname : string;
  searchParams : list (string * string)
}.

(** [new URL(path, window.location.origin)] for a path that the parser of
    the browser leaves as it is: no [?] or [#], which would start a query
    or a fragment, no character that it would percent-encode and no dot
    segment. The constant endpoints of the client are such paths; a
    statement about an endpoint or an id that a caller supplies says so in
    a hypothesis. *)
Definition new_URL (path : string) : URL :=
  {| pathname := path; searchParams := [] |}.

(** [url.searchParams.append(key, value)]. *)
Definition append (u : URL) (key value : string) : URL :=
  {| pathname := pathname u; searchParams := searchParams u ++ [(key, value)] |}.

Inductive Method : Type := GET | POST | DELETE.

(** One entry of a [FormData]. *)
Inductive FormValue (num : Type) : Type :=
| FormFile (f : File)
| FormJson (v : JsValue num).        (* JSON.stringify(v) *)

Arguments FormFile {num} f.
Arguments FormJson {num} v.

Inductive Body (num : Type) : Type :=
| JsonBody (v : JsValue num)         (* JSON.stringify(v) *)
| FormData (entries : list (string * FormValue num)).

Arguments JsonBody {num} v.
Arguments FormData {num} entries.

(** The two arguments of [fetch]. *)
Record Request (num : Type) : Type := {
  req_url : URL;
  req_method : Method;
  req_headers : list (string * string);
  req_body : option (Body num)
}.

Arguments req_url {num} _.
Arguments req_method {num} _.
Arguments req_headers {num} _.
Arguments req_body {num} _.

(** The [Response] of the browser as [handleResponse] reads it.
    [resp_json] is what [response.json()] settles to: [None] when the body
    is not JSON and the promise rejects. *)
Record Response (num : Type) : Type := {
  resp_ok : bool;
  resp_status : Z;
  resp_statusText : string;
  resp_json : option (JsValue num)
}.

Arguments resp_ok {num} _.
Arguments resp_status {num} _.
Arguments resp_statusText {num} _.
Arguments resp_json {num} _.

Definition API_BASE : string := "/api/v1".

Section Client.
Context {num : Type} `{JsNumber num}.

(** The network: what [fetch] settles to for a request. *)
Variable fetch : Request num -> Outcome (Response num).

(** [await response.json()]. *)
Definition json (response : Response num) : Outcome (JsValue num) :=
  match resp_json response with
  | Some v => Resolved v
  | None => Rejected SyntaxError
  end.

(** [a || b] where [b] is only evaluated when [a] is falsy. *)
Definition or_else (a : JsValue num) (b : JsValue num) : JsValue num :=
  if truthy a then a else b.

(** The [try] block of [handleResponse]: [message] starts as
    [response.statusText]; a body that does not parse, or whose value has
    no properties to read, leaves it there. *)
Definition error_message (response : Response num) : JsValue num :=
  let message := JsString (resp_statusText response) in
  match resp_json response with
  | None => message
  | Some errorData =>
      match get errorData "detail", get errorData "message" with
      | Some detail, Some msg => or_else detail (or_else msg message)
      | _, _ => message
      end
  end.

(** [new ApiError(status, statusText, message)]: [super(message)] stores
    [String(message)]. *)
Definition new_ApiError (status : Z) (statusText : string)
  (message : JsValue num) : JsError :=
  ApiError status statusText (toString message).

Definition handleResponse (response : Response num) : Outcome (JsValue num) :=
  if negb (resp_ok response) then
    Rejected (new_ApiError (resp_status response) (resp_statusText response)
                (error_message response))
  else json response.

(** The [forEach] over [Object.entries(params)]. *)
Definition append_params (url : URL) (params : list (string * JsValue num))
  : URL :=
  fold_left
    (fun u kv =>
       let '(key, value) := kv in
       if is_present value then append u key (toString value) else u)
    params url.

(** The pairs a params record comes to: its present entries, printed. *)
Definition serialized (params : list (string * JsValue num))
  : list (string * string) :=
  map (fun kv => (fst kv, toString (snd kv)))
    (filter (fun kv => is_present (snd kv)) params).

Definition apiGet_request (endpoint : string)
  (params : option (list (string * JsValue num))) : Request num :=
  let url := new_URL (API_BASE ++ endpoint) in
  let url :=
    match params with
    | Some ps => append_params url ps
    | None => url
    end in
  {| req_url := url; req_method := GET;
     req_headers := [("Accept", "application/json")];
     req_body := None |}.

Definition apiGet (endpoint : string)
  (params : option (list (string * JsValue num))) : Outcome (JsValue num) :=
  bind (fetch (apiGet_request endpoint params)) handleResponse.

Definition apiPost_request (endpoint : string) (body : JsValue num)
  : Request num :=
  {| req_url := new_URL (API_BASE ++ endpoint); req_method := POST;
     req_headers := [("Content-Type", "application/json");
                     ("Accept", "application/json")];
     req_body := if truthy body then Some (JsonBody body) else None |}.

Definition apiPost (endpoint : string) (body : JsValue num)
  : Outcome (JsValue num) :=
  bind (fetch (apiPost_request endpoint body)) handleResponse.

Definition apiDelete_request (endpoint : string) : Request num :=
  {| req_url := new_URL (API_BASE ++ endpoint); req_method := DELETE;
     req_headers := [("Accept", "application/json")];
     req_body := None |}.

Definition apiDelete (endpoint : string) : Outcome (JsValue num) :=
  bind (fetch (apiDelete_request endpoint)) handleResponse.

Definition apiUpload_request (endpoint : string) (file : File)
  (metadata : option (JsValue num)) : Request num :=
  let formData := [("file", FormFile file)] in
  let formData :=
    match metadata with
    | Some m => formData ++ [("custom_metadata", FormJson m)]
    | None => formData
    end in
  {| req_url := new_URL (API_BASE ++ endpoint); req_method := POST;
     req_headers := [];
     req_body := Some (FormData formData) |}.

Definition apiUpload (endpoint : string) (file : File)
  (metadata : option (JsValue num)) : Outcome (JsValue num) :=
  bind (fetch (apiUpload_request endpoint file metadata)) handleResponse.

Definition apiUploadMultiple_request (endpoint : string) (files : list File)
  : Request num :=
  {| req_url := new_URL (API_BASE ++ endpoint); req_method := POST;
     req_headers := [];
     req_body := Some (FormData (map (fun f => ("files", FormFile f)) files)) |}.

Definition apiUploadMultiple (endpoint : string) (files : list File)
  : Outcome (JsValue num) :=
  bind (fetch (apiUploadMultiple_request endpoint files)) handleResponse.

(** A call of one of the five helpers, with its arguments. *)
Inductive ApiCall : Type :=
| CallGet (endpoint : string) (params : option (list (string * JsValue num)))
| CallPost (endpoint : string) (body : JsValue num)
| CallDelete (endpoint : string)
| CallUpload (endpoint : string) (file : File) (metadata : option (JsValue num))
| CallUploadMultiple (endpoint : string) (files : list File).

Definition request_of (c : ApiCall) : Request num :=
  match c with
  | CallGet e p => apiGet_request e p
  | CallPost e b => apiPost_request e b
  | CallDelete e => apiDelete_request e
  | CallUpload e f m => apiUpload_request e f m
  | CallUploadMultiple e fs => apiUploadMultiple_request e fs
  end.

Definition call (c : ApiCall) : Outcome (JsValue num) :=
  match c with
  | CallGet e p => apiGet e p
  | CallPost e b => apiPost e b
  | CallDelete e => apiDelete e
  | CallUpload e f m => apiUpload e f m
  | CallUploadMultiple e fs => apiUploadMultiple e fs
  end.

End Client.

End Client.

Import Client.

(* ================================================================== *)
(** * api/search.ts                                                    *)
(* ================================================================== *)

Module Search.

Section Search.
Context {num : Type} `{JsNumber num}.
Variable fetch : Request num -> Outcome (Response num).

(** A parameter with a default value: [undefined] takes the default. *)
Definition or_default {A : Type} (d : A) (o : option A) : A :=
  match o with
  | Some a => a
  | None => d
  end.

(** The request of the first branch of [searchSimple], built by hand on a
    [URL]. *)
Definition searchSimple_url (q : string) (limit minScore : num)
  (documentTypes : list DocumentType) : URL :=
  let url := new_URL "/api/v1/search" in
  let url := append url "q" q in
  let url := append url "limit" (toString (JsNum limit)) in
  let url := append url "min_score" (toString (JsNum minScore)) in
  fold_left (fun u type => append u "document_type" (DocumentType_wire type))
    documentTypes url.

(** The request [searchSimple] issues; [limit = 10] and [minScore = 0] are
    the defaults of its signature. *)
Definition searchSimple_request (q : string) (limit minScore : option num)
  (documentTypes : option (list DocumentType)) : Request num :=
  let limit := or_default (num_of_Z 10) limit in
  let minScore := or_default (num_of_Z 0) minScore in
  let params := [("q", JsString q); ("limit", JsNum limit);
                 ("min_score", JsNum minScore)] in
  match documentTypes with
  | Some ((_ :: _) as types) =>
      {| req_url := searchSimple_url q limit minScore types;
         req_method := GET;
         req_headers := [("Accept", "application/json")];
         req_body := None |}
  | _ => apiGet_request "/search" (Some params)
  end.

(** What the first branch of [searchSimple] makes of the response. *)
Definition search_response (response : Response num) : Outcome (JsValue num) :=
  if negb (resp_ok response) then
    Rejected (Error ("Search failed: " ++ resp_statusText response))
  else json response.

Definition searchSimple (q : string) (limit minScore : option num)
  (documentTypes : option (list DocumentType)) : Outcome (JsValue num) :=
  match documentTypes with
  | Some (_ :: _) =>
      bind (fetch (searchSimple_request q limit minScore documentTypes))
        search_response
  | _ =>
      bind (fetch (searchSimple_request q limit minScore documentTypes))
        handleResponse
  end.

End Search.

End Search.

(* ================================================================== *)
(** * api/wiki.ts                                                      *)
(* ================================================================== *)

Module Wiki.

Section Wiki.
Context {num : Type} `{JsNumber num}.
Variable fetch : Request num -> Outcome (Response num).

(** The query record of [generateWikiSimple]; [maxSources = 10],
    [format = 'html'] and [includeSources = true] are its defaults. *)
Definition generateWikiSimple_params (query : string)
  (maxSources : option num) (format : option OutputFormat)
  (includeSources : option bool) : list (string * JsValue num) :=
  [("q", JsString query);
   ("max_sources", JsNum (Search.or_default (num_of_Z 10) maxSources));
   ("format", JsString (OutputFormat_wire (Search.or_default fmt_html format)));
   ("include_sources", JsBool (Search.or_default true includeSources))].

Definition generateWikiSimple (query : string) (maxSources : option num)
  (format : option OutputFormat) (includeSources : option bool)
  : Outcome (JsValue num) :=
  apiGet fetch "/wiki/generate"
    (Some (generateWikiSimple_params query maxSources format includeSources)).

End Wiki.

End Wiki.

(* ================================================================== *)
(** * components/search/SearchFilters.tsx and pages/SearchPage.tsx     *)
(* ================================================================== *)

Module SearchFilters.

(** The checkboxes the filter row offers. *)
Definition DOCUMENT_TYPES : list (DocumentType * string) :=
  [(pdf, "PDF"); (docx, "Word"); (xlsx, "Excel"); (markdown, "Markdown");
   (html, "HTML"); (epub, "EPUB"); (text, "Text")].

(** [selectedTypes.includes(type)]. *)
Definition includes (selectedTypes : list DocumentType) (type : DocumentType)
  : bool :=
  existsb (fun t => if DocumentType_eq_dec t type then true else false)
    selectedTypes.

(** [toggleType]: the list it hands to [onTypesChange]. *)
Definition toggleType (selectedTypes : list DocumentType)
  (type : DocumentType) : list DocumentType :=
  if includes selectedTypes type then
    filter (fun t => if DocumentType_eq_dec t type then false else true)
      selectedTypes
  else selectedTypes ++ [type].

(** The types that have a checkbox. *)
Definition offered (t : DocumentType) : Prop := In t (map fst DOCUMENT_TYPES).

(** A click on the [i]-th checkbox of the row: [onCheckedChange] of the
    checkbox rendered for [DOCUMENT_TYPES[i]]. There is no other way into
    [toggleType]. *)
Definition click (selectedTypes : list DocumentType) (i : nat)
  : list DocumentType :=
  match nth_error DOCUMENT_TYPES i with
  | Some (value, _) => toggleType selectedTypes value
  | None => selectedTypes
  end.

End SearchFilters.

Module SearchPage.

(** [useState<DocumentType[]>([])]. *)
Definition initial_selectedTypes : list DocumentType := [].

(** [onTypesChange = setSelectedTypes]: the selection after a run of
    clicks on the filter row. *)
Definition selection_after (clicks : list nat) : list DocumentType :=
  fold_left SearchFilters.click clicks initial_selectedTypes.

(** The query [handleSearch] hands to the search mutation. *)
Definition handleSearch {num : Type} `{JsNumber num}
  (selectedTypes : list DocumentType) (query : string) : SearchQuery num :=
  {| sq_query := query;
     sq_limit := Some (num_of_Z 20);
     sq_min_score := None;
     sq_document_ids := None;
     sq_document_types :=
       if (0 <? length selectedTypes)%nat then Some selectedTypes else None;
     sq_include_embeddings := None |}.

End SearchPage.

(* ================================================================== *)
(** * components/documents/UploadZone.tsx                              *)
(* ================================================================== *)

Module UploadZone.

Inductive Status : Type := pending | uploading | success | error.

Definition Status_eq_dec (a b : Status) : {a = b} + {a <> b}.
Proof. decide equality. Defined.

Definition is_status (a b : Status) : bool :=
  if Status_eq_dec a b then true else false.

(** [interface UploadResult]. *)
Record UploadResult (num : Type) : Type := {
  up_file : File;
  up_status : Status;
  up_result : option (IngestResponse num);
  up_error : option string
}.

Arguments up_file {num} _.
Arguments up_status {num} _.
Arguments up_result {num} _.
Arguments up_error {num} _.

Section UploadZone.
Context {num : Type}.

(** [uploadMutation.mutateAsync]: the batch request for a list of files. *)
Variable mutateAsync : list File -> Outcome (list (IngestResponse num)).

(** [files.filter(f => f.status === 'pending')]. *)
Definition pendingFiles (files : list (UploadResult num))
  : list (UploadResult num) :=
  filter (fun f => is_status (up_status f) pending) files.

(** "Mark all as uploading". *)
Definition mark_uploading (prev : list (UploadResult num))
  : list (UploadResult num) :=
  map (fun f =>
         if is_status (up_status f) pending then
           {| up_file := up_file f; up_status := uploading;
              up_result := up_result f; up_error := up_error f |}
         else f)
      prev.

(** [results.find(r => r.filename === f.file.name)]. *)
Definition find_result (results : list (IngestResponse num))
  (f : UploadResult num) : option (IngestResponse num) :=
  find (fun r => ingest_filename r =? file_name (up_file f)) results.

(** What "Update with results" makes of one entry. *)
Definition update_with (results : list (IngestResponse num))
  (f : UploadResult num) : UploadResult num :=
  if negb (is_status (up_status f) uploading) then f
  else
    match find_result results f with
    | Some result =>
        {| up_file := up_file f;
           up_status :=
             if ingest_status result =? "success" then success else error;
           up_result := Some result;
           up_error := option_map (join ", ") (ingest_errors result) |}
    | None =>
        {| up_file := up_file f; up_status := error;
           up_result := up_result f; up_error := Some "Unknown error" |}
    end.

(** "Update with results". *)
Definition update_with_results (results : list (IngestResponse num))
  (prev : list (UploadResult num)) : list (UploadResult num) :=
  map (update_with results) prev.

(** [String(error)] of a rejection: the name of the error, then a colon
    and its message when it has one. The message of an [ApiError] and of an
    [Error] is the one the client gave it; the browser's own message of a
    [SyntaxError] or a [TypeError] is not modelled, and no statement reads
    the text printed for these two. *)
Definition error_toString (e : JsError) : string :=
  let print name message :=
    if message =? "" then name else (name ++ ": " ++ message)%string in
  match e with
  | ApiError _ _ message => print "ApiError" message
  | Error message => print "Error" message
  | SyntaxError => "SyntaxError"      (* the parser's own text is left out *)
  | TypeError => "TypeError"
  end.

(** The [catch] block: the whole batch failed. *)
Definition fail_uploading (e : JsError) (prev : list (UploadResult num))
  : list (UploadResult num) :=
  map (fun f =>
         if is_status (up_status f) uploading then
           {| up_file := up_file f; up_status := error;
              up_result := up_result f; up_error := Some (error_toString e) |}
         else f)
      prev.

(** [handleUpload]: the [files] state once the handler has run. *)
Definition handleUpload (files : list (UploadResult num))
  : list (UploadResult num) :=
  match pendingFiles files with
  | [] => files
  | pendingFiles =>
      let uploadingFiles := mark_uploading files in
      match mutateAsync (map up_file pendingFiles) with
      | Resolved results => update_with_results results uploadingFiles
      | Rejected e => fail_uploading e uploadingFiles
      end
  end.

End UploadZone.

End UploadZone.

(* ================================================================== *)
(** * components/wiki/WikiContent.tsx                                  *)
(* ================================================================== *)

Module WikiContent.

(** [dangerouslySetInnerHTML={{ __html: content }}]: the markup the preview
    pane hands to the browser is [data.content], as received. *)
Definition innerHTML {num : Type} (data : WikiGenerateResponse num) : string :=
  wr_content data.

End WikiContent.

(* ================================================================== *)
(** * The renderer of the specification (section 4.5)                  *)
(* ================================================================== *)

Module Renderer.

(** Modelled from the spec: the output representations of [render], whose
    code is on the server and not in this repository's client. The spec
    names them markdown, HTML, text and structured data. *)
Inductive Format : Type := Markdown | Html | Text | Structured.

(** Modelled from the spec: the error kinds of section 7, absent from the
    client. *)
Inductive ErrorKind : Type := NotFound | InvalidArgument | Unavailable | Conflict.

(** Modelled from the spec: the format names of "format in {markdown, html,
    text, structured}", the check of [render] being absent from the
    client. *)
Definition formats : list string := ["markdown"; "html"; "text"; "structured"].

(** Modelled from the spec: the format check of [render], absent from the
    client: "Unsupported format fails with InvalidArgument". *)
Definition parse_format (name : string) : Format + ErrorKind :=
  if name =? "markdown" then inl Markdown
  else if name =? "html" then inl Html
  else if name =? "text" then inl Text
  else if name =? "structured" then inl Structured
  else inr InvalidArgument.

(** Modelled from the spec: the escaping of "HTML output must escape all
    source text", the HTML renderer being absent from the client. The five
    characters with a meaning in markup become character references. *)
Definition escape_char (c : ascii) : string :=
  if Ascii.eqb c "&" then "&amp;"
  else if Ascii.eqb c "<" then "&lt;"
  else if Ascii.eqb c ">" then "&gt;"
  else if Ascii.eqb c "034" then "&quot;"      (* the double quote *)
  else if Ascii.eqb c "'" then "&#x27;"
  else String c "".

Fixpoint escape (s : string) : string :=
  match s with
  | EmptyString => ""
  | String c rest => escape_char c ++ escape rest
  end.

(** What an HTML rendering is made of: the renderer's own markup and the
    text that comes from the entry. *)
Inductive Piece : Type :=
| Markup (m : string)
| SourceText (s : string).

Definition emit (p : Piece) : string :=
  match p with
  | Markup m => m
  | SourceText s => escape s
  end.

Section Renderer.
Context {num : Type}.

(** [document_title || source_path], the label the client also shows. *)
Definition source_label (w : WikiSource num) : string :=
  match document_title w with
  | Some t => if t =? "" then source_path w else t
  | None => source_path w
  end.

Definition source_pieces (w : WikiSource num) : list Piece :=
  [Markup "<li>"; Markup "<cite>"; SourceText (source_label w);
   Markup "</cite>"; Markup "<q>"; SourceText (excerpt w); Markup "</q>";
   Markup "</li>"].

Definition citation_pieces (include_sources : bool)
  (sources : list (WikiSource num)) : list Piece :=
  if include_sources then
    [Markup "<ol>"] ++ flat_map source_pieces sources ++ [Markup "</ol>"]
  else [].

Fixpoint section_pieces (include_sources : bool) (s : WikiSection num)
  : list Piece :=
  match s with
  | mkWikiSection heading content sources _ subsections =>
      [Markup "<section>"; Markup "<h2>"; SourceText heading; Markup "</h2>";
       Markup "<p>"; SourceText content; Markup "</p>"]
      ++ citation_pieces include_sources sources
      ++ (fix each (l : list (WikiSection num)) : list Piece :=
            match l with
            | [] => []
            | sub :: rest => section_pieces include_sources sub ++ each rest
            end) subsections
      ++ [Markup "</section>"]
  end.

Definition entry_pieces (include_sources : bool) (entry : WikiEntry num)
  : list Piece :=
  [Markup "<article>"; Markup "<h1>"; SourceText (title entry);
   Markup "</h1>"; Markup "<p>"; SourceText (summary entry); Markup "</p>"]
  ++ flat_map (section_pieces include_sources) (sections entry)
  ++ citation_pieces include_sources (all_sources entry)
  ++ [Markup "</article>"].

(** Modelled from the spec: [render(entry, 'html')], the HTML renderer being
    absent from the client. The spec fixes no layout; this one wraps each
    text of the entry in an element of its own, and every text of the entry
    (title, summary, headings, section contents, source labels, excerpts)
    goes through [escape]. With [include_sources] false the citation lists
    are left out. *)
Definition render_html (include_sources : bool) (entry : WikiEntry num)
  : string :=
  String.concat "" (map emit (entry_pieces include_sources entry)).

End Renderer.

(** The markup of the layout: every [Markup] piece above is one of these. *)
Definition layout : list string :=
  ["<article>"; "</article>"; "<h1>"; "</h1>"; "<h2>"; "</h2>"; "<p>"; "</p>";
   "<section>"; "</section>"; "<ol>"; "</ol>"; "<li>"; "</li>";
   "<cite>"; "</cite>"; "<q>"; "</q>"].

(** The element names of the layout, as opening and closing tags. *)
Definition layout_tags : list string :=
  ["article"; "/article"; "h1"; "/h1"; "h2"; "/h2"; "p"; "/p";
   "section"; "/section"; "ol"; "/ol"; "li"; "/li"; "cite"; "/cite";
   "q"; "/q"].

(** The tags a browser finds in a text: what stands between a [<] and the
    next [>]. [inside] is the tag being read, if any. *)
Fixpoint scan (inside : option string) (s : string)
  : list string * option string :=
  match s with
  | EmptyString => ([], inside)
  | String c rest =>
      match inside with
      | None =>
          if Ascii.eqb c "<" then scan (Some "") rest else scan None rest
      | Some name =>
          if Ascii.eqb c ">" then
            let (found, last) := scan None rest in (name :: found, last)
          else scan (Some (name ++ String c "")%string) rest
      end
  end.

Definition tags_of (s : string) : list string := fst (scan None s).

(** No character of [s] opens or closes a tag or an attribute value. *)
Fixpoint markup_free (s : string) : bool :=
  match s with
  | EmptyString => true
  | String c rest =>
      negb (Ascii.eqb c "<" || Ascii.eqb c ">" || Ascii.eqb c "034"
            || Ascii.eqb c "'")
      && markup_free rest
  end.

(** A piece of markup of the layout: read from outside a tag, it holds
    tags of the layout only and ends outside a tag. *)
Definition layout_markup (m : string) : bool :=
  match scan None m with
  | (found, None) =>
      forallb (fun t => existsb (String.eqb t) layout_tags) found
  | (_, Some _) => false
  end.

(** A piece of a rendering: markup of the layout, or text of the entry. *)
Definition layout_piece (p : Piece) : Prop :=
  match p with
  | Markup m => In m layout
  | SourceText _ => True
  end.

End Renderer.

(* ================================================================== *)
(** * The specification's lists, in its own words                      *)
(* ================================================================== *)

Module Spec.

(** Section 3: "document type (enum:
    pdf|docx|xlsx|markdown|html|epub|text|unknown)". *)
Definition document_types : list string :=
  ["pdf"; "docx"; "xlsx"; "markdown"; "html"; "epub"; "text"; "unknown"].

(** Section 3, WikiSource: each attribute as the spec words it, with the
    property that carries it on the wire. *)
Definition WikiSource_attributes : list (string * string) :=
  [("chunk id", "chunk_id");
   ("document id", "document_id");
   ("document title", "document_title");
   ("source path", "source_path");
   ("page number", "page_number");
   ("section label", "section");
   ("relevance score", "relevance_score");
   ("short excerpt", "excerpt")].

(** Section 7 and the claim on [handleResponse]: the human-readable detail
    of a failure is the [detail] of the response body, else its [message],
    else the status text. "Has a detail" is read as the code's [||] reads
    it: the body is an object whose property is truthy. *)
Definition failure_detail {num : Type} `{JsNumber num}
  (response : Response num) : string :=
  match resp_json response with
  | Some (JsObject body) =>
      if truthy (lookup "detail" body) then toString (lookup "detail" body)
      else if truthy (lookup "message" body) then
             toString (lookup "message" body)
      else resp_statusText response
  | _ => resp_statusText response
  end.

(** The [key] field of the body of a response: [undefined] when the body
    is not JSON, is not an object or has no such property. *)
Definition body_field {num : Type} (response : Response num) (key : string)
  : JsValue num :=
  match resp_json response with
  | Some (JsObject body) => lookup key body
  | _ => JsUndefined
  end.

(** A field that is absent or holds a text: a string that is not empty. *)
Definition text_or_absent {num : Type} (v : JsValue num) : Prop :=
  v = JsUndefined \/ exists s, v = JsString s /\ s <> "".

(** The message of the claim on [handleResponse], in its words: the
    [detail] of the body, else its [message], else the status text. *)
Definition detail_else_message {num : Type} (response : Response num)
  : string :=
  match body_field response "detail", body_field response "message" with
  | JsString detail, _ => detail
  | _, JsString message => message
  | _, _ => resp_statusText response
  end.

End Spec.

(* ================================================================== *)
(** * The rest of UploadZone.tsx                                       *)
(* ================================================================== *)

Module UploadList.
Import UploadZone.

Section UploadList.
Context {num : Type}.

(** [onDrop]: every accepted file joins the list as a pending entry. *)
Definition onDrop (prev : list (UploadResult num)) (acceptedFiles : list File)
  : list (UploadResult num) :=
  let newFiles :=
    map (fun file =>
           {| up_file := file; up_status := pending;
              up_result := None; up_error := None |})
      acceptedFiles in
  prev ++ newFiles.

(** [array.filter((x, i) => p(x, i))], from position [i] on. *)
Fixpoint filter_indexed {A : Type} (p : A -> nat -> bool) (i : nat)
  (l : list A) : list A :=
  match l with
  | [] => []
  | x :: rest =>
      if p x i then x :: filter_indexed p (S i) rest
      else filter_indexed p (S i) rest
  end.

(** [removeFile]: [prev.filter((_, i) => i !== index)]. *)
Definition removeFile (index : nat) (prev : list (UploadResult num))
  : list (UploadResult num) :=
  filter_indexed (fun _ i => negb (i =? index)%nat) 0 prev.

(** [clearCompleted]. *)
Definition clearCompleted (prev : list (UploadResult num))
  : list (UploadResult num) :=
  filter (fun f => is_status (up_status f) pending
                   || is_status (up_status f) uploading)
    prev.

Definition pendingCount (files : list (UploadResult num)) : nat :=
  length (filter (fun f => is_status (up_status f) pending) files).

Definition successCount (files : list (UploadResult num)) : nat :=
  length (filter (fun f => is_status (up_status f) success) files).

(** An entry whose upload has ended, one way or the other. *)
Definition settled (f : UploadResult num) : Prop :=
  up_status f = success \/ up_status f = error.

End UploadList.

End UploadList.

(* ================================================================== *)
(** * api/documents.ts                                                 *)
(* ================================================================== *)

Module Documents.

Section Documents.
Context {num : Type} `{JsNumber num}.
Variable fetch : Request num -> Outcome (Response num).

(** The object literal [{ offset, limit }] of [getDocuments] and
    [getDocumentChunks], whose signatures default [offset] to 0 and
    [limit] to 50. *)
Definition page (offset limit : option num) : list (string * JsValue num) :=
  [("offset", JsNum (Search.or_default (num_of_Z 0) offset));
   ("limit", JsNum (Search.or_default (num_of_Z 50) limit))].

Definition getDocuments (offset limit : option num) : Outcome (JsValue num) :=
  apiGet fetch "/documents" (Some (page offset limit)).

Definition getDocumentChunks (documentId : string) (offset limit : option num)
  : Outcome (JsValue num) :=
  apiGet fetch ("/documents/" ++ documentId ++ "/chunks")
    (Some (page offset limit)).

(** The type argument of [apiUploadMultiple<IngestResponse[]>]: the parsed
    body read at the declared type. The code checks nothing here. *)
Variable as_IngestResponses : JsValue num -> list (IngestResponse num).

(** [uploadDocuments], the [mutationFn] behind
    [useUploadDocuments().mutateAsync]. *)
Definition uploadDocuments (files : list File)
  : Outcome (list (IngestResponse num)) :=
  bind (apiUploadMultiple fetch "/ingest/batch" files)
    (fun body => Resolved (as_IngestResponses body)).

End Documents.

End Documents.

(* ================================================================== *)
(** * api/wiki.ts: generateWikiSection                                 *)
(* ================================================================== *)

Module WikiSectionApi.

Section WikiSectionApi.
Context {num : Type} `{JsNumber num}.
Variable fetch : Request num -> Outcome (Response num).

(** The [params] record that [generateWikiSection] builds: [topic] and
    [max_sources] (5 by default), and [context] when it is a non-empty
    string. *)
Definition generateWikiSection_params (topic : string)
  (context : option string) (maxSources : option num)
  : list (string * JsValue num) :=
  let params :=
    [("topic", JsString topic);
     ("max_sources", JsNum (Search.or_default (num_of_Z 5) maxSources))] in
  match context with
  | Some c =>
      if truthy (JsString (num := num) c) then
        params ++ [("context", JsString c)]
      else params
  | None => params
  end.

(** [generateWikiSection]: the record is built, and the call is
    [apiPost('/wiki/section', undefined)]. *)
Definition generateWikiSection_request (topic : string)
  (context : option string) (maxSources : option num) : Request num :=
  let params := generateWikiSection_params topic context maxSources in
  apiPost_request "/wiki/section" JsUndefined.

Definition generateWikiSection (topic : string) (context : option string)
  (maxSources : option num) : Outcome (JsValue num) :=
  let params := generateWikiSection_params topic context maxSources in
  apiPost fetch "/wiki/section" JsUndefined.

End WikiSectionApi.

End WikiSectionApi.

(* ================================================================== *)
(** * Labels, theme, navigation and chunk expansion                    *)
(* ================================================================== *)

Module Paths.

(** [s.split(sep)] for a separator of one character. A [/] is one unit in
    the strings of the browser and one byte here, and no other character
    holds it, so segments correspond. *)
Fixpoint split (sep : ascii) (s : string) : list string :=
  match s with
  | EmptyString => [""]
  | String c rest =>
      if Ascii.eqb c sep then "" :: split sep rest
      else
        match split sep rest with
        | segment :: segments => String c segment :: segments
        | [] => [String c ""]
        end
  end.

(** [array.pop()]: the last element, [undefined] for an empty array. *)
Fixpoint pop (l : list string) : option string :=
  match l with
  | [] => None
  | [x] => Some x
  | _ :: rest => pop rest
  end.

(** [document_title || source_path.split('/').pop()], the heading of
    DocumentCard, DocumentDetail, SearchResultCard and SourcesList. *)
Definition display_title (document_title : option string)
  (source_path : string) : option string :=
  match document_title with
  | Some t => if t =? "" then pop (split "/" source_path) else Some t
  | None => pop (split "/" source_path)
  end.

(** Whether a character occurs in a string. *)
Fixpoint occurs (c : ascii) (s : string) : bool :=
  match s with
  | EmptyString => false
  | String d rest => Ascii.eqb d c || occurs c rest
  end.

(** The characters that the URL parser keeps as they are in a path and
    that cannot form a dot segment: letters, digits, [-], [_] and [~]. *)
Definition plain_char (c : ascii) : bool :=
  let n := nat_of_ascii c in
  ((48 <=? n) && (n <=? 57) || (65 <=? n) && (n <=? 90)
   || (97 <=? n) && (n <=? 122) || (n =? 45) || (n =? 95) || (n =? 126))%nat.

Fixpoint plain (s : string) : bool :=
  match s with
  | EmptyString => true
  | String c rest => plain_char c && plain rest
  end.

End Paths.

Module UrlParse.

(** The text before the first [c] of [s], and the text after it when [c]
    occurs. *)
Fixpoint cut (c : ascii) (s : string) : string * option string :=
  match s with
  | EmptyString => ("", None)
  | String d rest =>
      if Ascii.eqb d c then ("", Some rest)
      else let (before, behind) := cut c rest in (String d before, behind)
  end.

Fixpoint all (p : ascii -> bool) (s : string) : bool :=
  match s with
  | EmptyString => true
  | String c rest => p c && all p rest
  end.

(** A character that the parser keeps as it is, in a path and in a query:
    a plain character or a slash. *)
Definition kept (c : ascii) : bool := Paths.plain_char c || Ascii.eqb c "/".

(** One [key=value] of a query string, both of kept characters. *)
Definition parse_pair (piece : string) : option (string * string) :=
  match cut "=" piece with
  | (key, Some value) =>
      if all kept key && all kept value then Some (key, value) else None
  | (_, None) => None
  end.

Fixpoint parse_pairs (pieces : list string) : option (list (string * string)) :=
  match pieces with
  | [] => Some []
  | piece :: rest =>
      match parse_pair piece, parse_pairs rest with
      | Some kv, Some pairs => Some (kv :: pairs)
      | _, _ => None
      end
  end.

(** The pairs of a query string [k1=v1&k2=v2...]. *)
Definition parse_query (query : string) : option (list (string * string)) :=
  if query =? "" then Some [] else parse_pairs (Paths.split "&" query).

(** A path of kept characters that starts with one slash, not two (two
    would start a host name). *)
Definition path_ok (path : string) : bool :=
  match path with
  | String c rest =>
      Ascii.eqb c "/"
      && match rest with
         | String d _ => negb (Ascii.eqb d "/")
         | EmptyString => true
         end
      && all kept path
  | EmptyString => false
  end.

(** [new URL(input, window.location.origin)] where the parser only has to
    cut: [input] is a path of kept characters that starts with a slash,
    then possibly a [?] and a query of [key=value] pairs joined by [&]. The
    query of the input is the query the URL starts with. [None] is an input
    that this model does not cover (a fragment, a character that is
    encoded or decoded, a dot segment). *)
Definition new_URL (input : string) : option URL :=
  let (path, query) := cut "?" input in
  if path_ok path then
    match query with
    | None => Some {| pathname := path; searchParams := [] |}
    | Some q =>
        match parse_query q with
        | Some pairs => Some {| pathname := path; searchParams := pairs |}
        | None => None
        end
    end
  else None.

(** The URL that [apiGet] hands to [fetch], for an endpoint that this
    model of the parser covers. *)
Definition apiGet_url {num : Type} `{JsNumber num} (endpoint : string)
  (params : option (list (string * JsValue num))) : option URL :=
  match new_URL (API_BASE ++ endpoint) with
  | Some url =>
      Some match params with
           | Some ps => append_params url ps
           | None => url
           end
  | None => None
  end.

End UrlParse.

Module Theme.

(** [getInitialTheme] of main.tsx: [stored] is
    [localStorage.getItem('theme')], [prefersLight] is what
    [matchMedia('(prefers-color-scheme: light)').matches] gives. *)
Definition getInitialTheme (stored : option string) (prefersLight : bool)
  : string :=
  let fallback := if prefersLight then "light" else "dark" in
  match stored with
  | Some theme =>
      if (theme =? "light") || (theme =? "dark") then theme else fallback
  | None => fallback
  end.

(** Whether main.tsx adds the class [dark] to the document. *)
Definition adds_dark_class (stored : option string) (prefersLight : bool)
  : bool :=
  getInitialTheme stored prefersLight =? "dark".

End Theme.

Module Nav.

(** [navItems] of Header.tsx, as path and label. *)
Definition Header_navItems : list (string * string) :=
  [("/", "Dashboard"); ("/documents", "Documents"); ("/search", "Search");
   ("/wiki", "Wiki")].

(** [navItems] of Sidebar.tsx, as path and label. *)
Definition Sidebar_navItems : list (string * string) :=
  [("/", "Dashboard"); ("/documents", "Documents"); ("/search", "Search");
   ("/wiki", "Generate Wiki")].

(** [location.pathname === item.path]. *)
Definition isActive (pathname : string) (item : string * string) : bool :=
  pathname =? fst item.

End Nav.

Module DocumentDetail.

(** A [Set<number>] of chunk positions: its elements in insertion order,
    each once. *)
Definition has (s : list nat) (index : nat) : bool :=
  existsb (fun x => (x =? index)%nat) s.

Definition delete (s : list nat) (index : nat) : list nat :=
  filter (fun x => negb (x =? index)%nat) s.

Definition add (s : list nat) (index : nat) : list nat :=
  if has s index then s else s ++ [index].

(** [toggleChunk]: the set handed to [setExpandedChunks]. *)
Definition toggleChunk (prev : list nat) (index : nat) : list nat :=
  let next := prev in
  if has next index then delete next index else add next index.

End DocumentDetail.

(* ================================================================== *)
(** * Properties                                                       *)
(* ================================================================== *)

(** ** The wire contract of types/api.ts *)

Lemma DocumentType_wire_inj (a b : DocumentType) :
  DocumentType_wire a = DocumentType_wire b -> a = b.
Proof. destruct a, b; simpl; intro E; try reflexivity; discriminate E. Qed.

(** C6. The document types of the wire contract are exactly the eight
    names the spec lists: a string is the wire form of a [DocumentType] if
    and only if it is one of pdf, docx, xlsx, markdown, html, epub, text,
    unknown; distinct members have distinct wire forms, so all eight are
    representable. *)
Theorem DocumentType_is_the_spec_enum :
  (forall s : string,
      In s Spec.document_types <-> exists t, DocumentType_wire t = s)
  /\ (forall a b, DocumentType_wire a = DocumentType_wire b <-> a = b)
  /\ NoDup Spec.document_types
  /\ length Spec.document_types = 8%nat.
Proof.
  split; [|split; [|split]].
  - intro s; split.
    + unfold Spec.document_types; simpl.
      intros [E|[E|[E|[E|[E|[E|[E|[E|[]]]]]]]]]; subst s.
      * now exists pdf.
      * now exists docx.
      * now exists xlsx.
      * now exists markdown.
      * now exists html.
      * now exists epub.
      * now exists text.
      * now exists unknown.
    + intros [t <-]; destruct t; simpl; tauto.
  - intros a b; split; [apply DocumentType_wire_inj | now intros ->].
  - unfold Spec.document_types.
    repeat (constructor; [simpl; intuition discriminate|]). constructor.
  - reflexivity.
Qed.

(** C7. A WikiSource crosses the wire as an object with exactly the eight
    properties chunk_id, document_id, document_title, source_path,
    page_number, section, relevance_score and excerpt, one for each
    attribute of the spec's WikiSource and in the spec's order; the eight
    properties determine the record. *)
Theorem WikiSource_wire_fields (num : Type) (w : WikiSource num) :
  map fst (WikiSource_toJson w) = WikiSource_fields
  /\ WikiSource_fields = map snd Spec.WikiSource_attributes
  /\ NoDup WikiSource_fields
  /\ length WikiSource_fields = 8%nat
  /\ WikiSource_ofJson (WikiSource_toJson w) = Some w.
Proof.
  split; [reflexivity|]. split; [reflexivity|].
  split; [|split; [reflexivity|]].
  - unfold WikiSource_fields.
    repeat (constructor; [simpl; intuition discriminate|]). constructor.
  - destruct w as [c d t p n s r e].
    unfold WikiSource_ofJson, WikiSource_toJson; simpl.
    destruct t, n, s; reflexivity.
Qed.

(** ** The type filter of the search page *)

Section Filters.
Import SearchFilters.

Lemma includes_In (s : list DocumentType) (t : DocumentType) :
  includes s t = true <-> In t s.
Proof.
  unfold includes. rewrite existsb_exists. split.
  - intros [x [Hx E]]. destruct (DocumentType_eq_dec x t); [now subst|discriminate].
  - intro Hin. exists t. split; [assumption|].
    destruct (DocumentType_eq_dec t t); [reflexivity|contradiction].
Qed.

Lemma includes_app (s1 s2 : list DocumentType) (u : DocumentType) :
  includes (s1 ++ s2) u = includes s1 u || includes s2 u.
Proof. unfold includes. apply existsb_app. Qed.

Lemma includes_remove (s : list DocumentType) (t u : DocumentType) :
  includes
    (filter (fun x => if DocumentType_eq_dec x t then false else true) s) u
  = if DocumentType_eq_dec u t then false else includes s u.
Proof.
  induction s as [|x s IH]; simpl.
  - now destruct (DocumentType_eq_dec u t).
  - destruct (DocumentType_eq_dec x t) as [Ext|Ext]; simpl.
    + rewrite IH. destruct (DocumentType_eq_dec u t) as [Eut|Eut];
        [reflexivity|].
      destruct (DocumentType_eq_dec x u) as [Exu|Exu]; [|reflexivity].
      congruence.
    + rewrite IH. destruct (DocumentType_eq_dec u t) as [Eut|Eut];
        [|reflexivity].
      destruct (DocumentType_eq_dec x u) as [Exu|Exu]; [|reflexivity].
      congruence.
Qed.

Lemma includes_toggleType (s : list DocumentType) (t u : DocumentType) :
  includes (toggleType s t) u
  = if DocumentType_eq_dec u t then negb (includes s t) else includes s u.
Proof.
  unfold toggleType. destruct (includes s t) eqn:Hst.
  - rewrite includes_remove. now destruct (DocumentType_eq_dec u t).
  - rewrite includes_app. simpl.
    destruct (DocumentType_eq_dec u t) as [->|Hut].
    + rewrite Hst. destruct (DocumentType_eq_dec t t); [reflexivity|contradiction].
    + destruct (DocumentType_eq_dec t u) as [E|_]; [now symmetry in E|].
      now rewrite !orb_false_r.
Qed.

(** C8. [toggleType(t)] flips the membership of [t] and of nothing else:
    for every selection [s] and every type [u], [u] is in the toggled list
    exactly when it was in [s], except for [u = t], which is in the toggled
    list exactly when it was not in [s]; and toggling [t] twice gives a
    list with the members of [s]. Membership is the code's own
    [selectedTypes.includes]. *)
Theorem toggleType_flips_membership
  (s : list DocumentType) (t u : DocumentType) :
  includes (toggleType s t) t = negb (includes s t)
  /\ includes (toggleType s t) u
     = (if DocumentType_eq_dec u t then negb (includes s u) else includes s u)
  /\ includes (toggleType (toggleType s t) t) u = includes s u
  /\ (In u (toggleType (toggleType s t) t) <-> In u s).
Proof.
  assert (Htwice : includes (toggleType (toggleType s t) t) u = includes s u).
  { rewrite !includes_toggleType.
    destruct (DocumentType_eq_dec u t) as [->|Hut].
    - destruct (DocumentType_eq_dec t t); [|contradiction].
      apply negb_involutive.
    - reflexivity. }
  split; [|split; [|split]].
  - rewrite includes_toggleType.
    destruct (DocumentType_eq_dec t t); [reflexivity|contradiction].
  - rewrite includes_toggleType.
    destruct (DocumentType_eq_dec u t) as [->|Hut]; reflexivity.
  - exact Htwice.
  - rewrite <- !includes_In, Htwice. reflexivity.
Qed.

Lemma offered_not_unknown (t : DocumentType) : offered t -> t <> unknown.
Proof.
  unfold offered; simpl. intros H E; subst t.
  repeat (destruct H as [H|H]; [discriminate H|]). exact H.
Qed.

Lemma toggleType_offered (s : list DocumentType) (t : DocumentType) :
  Forall offered s -> offered t -> Forall offered (toggleType s t).
Proof.
  intros Hs Ht. unfold toggleType. destruct (includes s t).
  - rewrite Forall_forall in *. intros x Hx.
    apply filter_In in Hx. apply Hs, Hx.
  - apply Forall_app. split; [assumption|]. now constructor.
Qed.

Lemma click_offered (s : list DocumentType) (i : nat) :
  Forall offered s -> Forall offered (click s i).
Proof.
  intro Hs. unfold click.
  destruct (nth_error DOCUMENT_TYPES i) as [[value label]|] eqn:E;
    [|assumption].
  apply toggleType_offered; [assumption|].
  apply nth_error_In in E. unfold offered.
  change value with (fst (value, label)). now apply in_map.
Qed.

Lemma clicks_offered (clicks : list nat) (s : list DocumentType) :
  Forall offered s -> Forall offered (fold_left click clicks s).
Proof.
  revert s. induction clicks as [|i clicks IH]; intros s Hs; simpl.
  - assumption.
  - apply IH, click_offered, Hs.
Qed.

(** C9. From the empty selection of SearchPage, whatever checkboxes of the
    filter row are clicked and in whatever order, the selection holds only
    the seven offered types pdf, docx, xlsx, markdown, html, epub, text;
    [unknown] is never in it, and so never in the [document_types] that
    [handleSearch] sends, which is the selection itself when it is not empty
    and absent otherwise. *)
Theorem search_filter_stays_within_offered_types
  (num : Type) (N : JsNumber num) (clicks : list nat) (query : string) :
  let selection := SearchPage.selection_after clicks in
  map fst DOCUMENT_TYPES = [pdf; docx; xlsx; markdown; html; epub; text]
  /\ Forall (fun t => In t [pdf; docx; xlsx; markdown; html; epub; text])
       selection
  /\ ~ In unknown selection
  /\ match sq_document_types (SearchPage.handleSearch (num := num) selection query) with
     | Some types => types = selection /\ types <> [] /\ ~ In unknown types
     | None => selection = []
     end.
Proof.
  intro selection.
  assert (Hall : Forall offered selection).
  { apply clicks_offered. constructor. }
  assert (Hunk : ~ In unknown selection).
  { intro Hin. rewrite Forall_forall in Hall.
    now apply (offered_not_unknown unknown (Hall _ Hin)). }
  split; [reflexivity|]. split; [exact Hall|]. split; [exact Hunk|].
  unfold SearchPage.handleSearch; simpl.
  destruct selection as [|t rest]; simpl.
  - reflexivity.
  - split; [reflexivity|]. split; [discriminate|exact Hunk].
Qed.

End Filters.

(** ** The requests of api/client.ts and api/search.ts *)

Section Requests.
Context {num : Type} {N : JsNumber num}.

Lemma append_params_spec (params : list (string * JsValue num)) (url : URL) :
  append_params url params
  = {| pathname := pathname url;
       searchParams := searchParams url ++ serialized params |}.
Proof.
  revert url. induction params as [|[key value] params IH]; intro url.
  - unfold append_params, serialized; simpl. rewrite app_nil_r.
    now destruct url.
  - unfold append_params in *; simpl. rewrite IH. unfold serialized; simpl.
    destruct (is_present value); simpl.
    + now rewrite <- app_assoc.
    + reflexivity.
Qed.

Lemma is_present_iff (v : JsValue num) :
  is_present v = true <-> v <> JsUndefined /\ v <> JsNull.
Proof.
  destruct v; simpl; split; try discriminate; try tauto;
    intros; split; discriminate.
Qed.

Lemma In_serialized (params : list (string * JsValue num)) (k s : string) :
  In (k, s) (serialized params)
  <-> exists v, In (k, v) params /\ is_present v = true /\ s = toString v.
Proof.
  unfold serialized. rewrite in_map_iff. split.
  - intros [[k' v] [E Hin]]. apply filter_In in Hin. simpl in *.
    injection E as -> <-. exists v. tauto.
  - intros [v [Hin [Hp ->]]]. exists (k, v). split; [reflexivity|].
    apply filter_In. split; assumption.
Qed.

Lemma NoDup_keys_functional (params : list (string * JsValue num))
  (k : string) (v w : JsValue num) :
  NoDup (map fst params) -> In (k, v) params -> In (k, w) params -> v = w.
Proof.
  induction params as [|[k' v'] params IH]; simpl; [tauto|].
  intros Hnd [E1|H1] [E2|H2]; inversion Hnd as [|? ? Hnotin Hnd']; subst.
  - congruence.
  - injection E1 as -> ->. exfalso. apply Hnotin.
    change k with (fst (k, w)). now apply in_map.
  - injection E2 as -> ->. exfalso. apply Hnotin.
    change k with (fst (k, v)). now apply in_map.
  - now apply IH.
Qed.

(** C10. For every params record (an object: each key once) and every
    endpoint that holds no [?], so that the URL starts without a query, the
    URL of the request [apiGet] issues has as its query exactly the entries
    whose value is neither [undefined] nor [null], in the order of the
    record and each as the pair of its key and [String(value)]: a key is in
    the query if and only if its value is neither [undefined] nor [null],
    and then with [String(value)] as its value. Whatever query a URL starts
    with, the [forEach] of [apiGet] adds these pairs at its end and nothing
    else. *)
Theorem apiGet_query_is_the_present_params
  (endpoint : string) (params : list (string * JsValue num)) :
  NoDup (map fst params) ->
  Paths.occurs "?" endpoint = false ->
  let query := searchParams (req_url (apiGet_request endpoint (Some params))) in
  query
  = map (fun kv => (fst kv, toString (snd kv)))
      (filter (fun kv => is_present (snd kv)) params)
  /\ (forall key value, In (key, value) params ->
        (In key (map fst query) <-> value <> JsUndefined /\ value <> JsNull)
        /\ (forall s, In (key, s) query -> s = toString value))
  /\ (forall key, In key (map fst query) -> In key (map fst params))
  /\ (forall fetch,
        apiGet fetch endpoint (Some params)
        = bind (fetch (apiGet_request endpoint (Some params))) handleResponse)
  /\ (forall url : URL,
        pathname (append_params url params) = pathname url
        /\ searchParams (append_params url params)
           = searchParams url ++ query).
Proof.
  intros Hnd _ query.
  assert (Hq : query = serialized params).
  { unfold query, apiGet_request. rewrite append_params_spec. reflexivity. }
  split; [exact Hq|]. rewrite Hq.
  split; [|split; [|split; [reflexivity|]]];
    [| |intro url; now rewrite append_params_spec].
  - intros key value Hin. split.
    + rewrite <- is_present_iff. split.
      * intro Hk. apply in_map_iff in Hk. destruct Hk as [[k s] [E Hks]].
        simpl in E; subst k. apply In_serialized in Hks.
        destruct Hks as [v [Hv [Hp _]]].
        now rewrite (NoDup_keys_functional params key value v Hnd Hin Hv).
      * intro Hp. apply in_map_iff. exists (key, toString value).
        split; [reflexivity|]. apply In_serialized. now exists value.
    + intros s Hs. apply In_serialized in Hs. destruct Hs as [v [Hv [_ ->]]].
      now rewrite (NoDup_keys_functional params key value v Hnd Hin Hv).
  - intros key Hk. apply in_map_iff in Hk. destruct Hk as [[k s] [E Hks]].
    simpl in E; subst k. apply In_serialized in Hks.
    destruct Hks as [v [Hv _]]. change key with (fst (key, v)).
    now apply in_map.
Qed.

Lemma apiGet_without_params (endpoint : string) :
  searchParams (req_url (apiGet_request (num := num) endpoint None)) = [].
Proof. reflexivity. Qed.

Lemma occurs_app (c : ascii) (a b : string) :
  Paths.occurs c (a ++ b) = Paths.occurs c a || Paths.occurs c b.
Proof.
  induction a as [|d a IH]; simpl; [reflexivity|].
  now rewrite IH, orb_assoc.
Qed.

Lemma cut_without (c : ascii) (s : string) :
  Paths.occurs c s = false -> UrlParse.cut c s = (s, None).
Proof.
  induction s as [|d s IH]; simpl; [reflexivity|].
  intro H. apply orb_false_elim in H. destruct H as [Hd Hs].
  now rewrite Hd, (IH Hs).
Qed.

(** Where the endpoint holds no [?] and the parser model covers it, the
    parsed URL is the URL of [apiGet_request]. *)
Lemma parsed_url_without_query (endpoint : string)
  (params : option (list (string * JsValue num))) (url : URL) :
  Paths.occurs "?" endpoint = false ->
  UrlParse.apiGet_url endpoint params = Some url ->
  url = req_url (apiGet_request endpoint params).
Proof.
  intros Hq. unfold UrlParse.apiGet_url, UrlParse.new_URL.
  rewrite cut_without by (rewrite occurs_app, Hq; reflexivity).
  destruct (UrlParse.path_ok (API_BASE ++ endpoint)); [|discriminate].
  intro E. injection E as <-. unfold apiGet_request, new_URL. simpl.
  now destruct params.
Qed.

Lemma searchSimple_url_spec (q : string) (limit minScore : num)
  (types : list DocumentType) :
  Search.searchSimple_url q limit minScore types
  = {| pathname := "/api/v1/search";
       searchParams :=
         [("q", q); ("limit", num_toString limit);
          ("min_score", num_toString minScore)]
         ++ map (fun t => ("document_type", DocumentType_wire t)) types |}.
Proof.
  unfold Search.searchSimple_url.
  set (url := append _ "min_score" _).
  assert (G : forall u : URL,
             fold_left
               (fun u type => append u "document_type" (DocumentType_wire type))
               types u
             = {| pathname := pathname u;
                  searchParams :=
                    searchParams u
                    ++ map (fun t => ("document_type", DocumentType_wire t))
                         types |}).
  { induction types as [|t types IH]; intro u; simpl.
    - rewrite app_nil_r. now destruct u.
    - rewrite IH. simpl. now rewrite <- app_assoc. }
  rewrite G. reflexivity.
Qed.

(** C5. Every call [searchSimple(q, limit, minScore, documentTypes)]
    settles by what [fetch] gives for one request, a GET to /api/v1/search
    whose query is [q], [limit]
    and [min_score] with the values of the call: [q] itself, [String] of
    the [limit] and of the [minScore] that the call gives, and [String] of
    10 and of 0 where the call leaves one out; followed by one
    [document_type] per element of [documentTypes] when that list is
    present and not empty, and by nothing when it is absent or empty. *)
Theorem searchSimple_request_parameters
  (fetch : Request num -> Outcome (Response num))
  (q : string) (limit minScore : option num)
  (documentTypes : option (list DocumentType)) :
  let request := Search.searchSimple_request q limit minScore documentTypes in
  let types := match documentTypes with Some ts => ts | None => [] end in
  Search.searchSimple fetch q limit minScore documentTypes
  = bind (fetch request)
      (match types with
       | [] => handleResponse
       | _ :: _ => Search.search_response
       end)
  /\ req_method request = GET
  /\ pathname (req_url request) = "/api/v1/search"
  /\ searchParams (req_url request)
     = [("q", q);
        ("limit",
         match limit with
         | Some given => num_toString given
         | None => num_toString (num_of_Z 10)
         end);
        ("min_score",
         match minScore with
         | Some given => num_toString given
         | None => num_toString (num_of_Z 0)
         end)]
       ++ map (fun t => ("document_type", DocumentType_wire t)) types
  /\ filter (fun kv => fst kv =? "document_type") (searchParams (req_url request))
     = map (fun t => ("document_type", DocumentType_wire t)) types.
Proof.
  intros request types.
  assert (Hq : searchParams (req_url request)
               = [("q", q);
                  ("limit", num_toString (Search.or_default (num_of_Z 10) limit));
                  ("min_score",
                   num_toString (Search.or_default (num_of_Z 0) minScore))]
                 ++ map (fun t => ("document_type", DocumentType_wire t)) types).
  { unfold request, types, Search.searchSimple_request.
    destruct documentTypes as [[|t ts]|]; simpl req_url.
    - reflexivity.
    - rewrite searchSimple_url_spec. reflexivity.
    - reflexivity. }
  split; [|split; [|split; [|split]]].
  - unfold Search.searchSimple, types. fold request.
    destruct documentTypes as [[|t ts]|]; reflexivity.
  - unfold request, Search.searchSimple_request.
    destruct documentTypes as [[|t ts]|]; reflexivity.
  - unfold request, Search.searchSimple_request.
    destruct documentTypes as [[|t ts]|]; simpl req_url;
      [reflexivity| now rewrite searchSimple_url_spec |reflexivity].
  - rewrite Hq. now destruct limit, minScore.
  - rewrite Hq. simpl. clear Hq.
    induction types as [|t ts IH]; simpl; [reflexivity|now rewrite IH].
Qed.

End Requests.

(** ** What the helpers of api/client.ts settle to *)

Section Responses.
Context {num : Type} {N : JsNumber num}.

Lemma handleResponse_resolved (response : Response num) (v : JsValue num) :
  handleResponse response = Resolved v
  <-> resp_ok response = true /\ resp_json response = Some v.
Proof.
  unfold handleResponse, json.
  destruct (resp_ok response); simpl.
  - destruct (resp_json response) as [w|]; split.
    + intro E; injection E as ->; tauto.
    + intros [_ E]; injection E as ->; reflexivity.
    + discriminate.
    + intros [_ E]; discriminate E.
  - split; [discriminate|]. intros [E _]; discriminate E.
Qed.

Lemma error_message_is_failure_detail (response : Response num) :
  toString (error_message response) = Spec.failure_detail response.
Proof.
  unfold error_message, Spec.failure_detail, or_else.
  destruct (resp_json response) as [errorData|]; [|reflexivity].
  destruct errorData; simpl; try reflexivity.
  destruct (truthy (lookup "detail" props)); [reflexivity|].
  destruct (truthy (lookup "message" props)); reflexivity.
Qed.

Lemma handleResponse_rejected (response : Response num) :
  resp_ok response = false ->
  handleResponse response
  = Rejected (ApiError (resp_status response) (resp_statusText response)
                (Spec.failure_detail response)).
Proof.
  intro Hok. unfold handleResponse, new_ApiError. rewrite Hok; simpl.
  now rewrite error_message_is_failure_detail.
Qed.

Lemma call_is_handleResponse
  (fetch : Request num -> Outcome (Response num)) (c : ApiCall)
  (response : Response num) :
  fetch (request_of c) = Resolved response ->
  call fetch c = handleResponse response.
Proof.
  intro Hf. destruct c; simpl in *;
    unfold apiGet, apiPost, apiDelete, apiUpload, apiUploadMultiple;
    now rewrite Hf.
Qed.

Lemma failure_detail_of_texts (response : Response num) :
  Spec.text_or_absent (Spec.body_field response "detail") ->
  Spec.text_or_absent (Spec.body_field response "message") ->
  Spec.failure_detail response = Spec.detail_else_message response.
Proof.
  unfold Spec.failure_detail, Spec.detail_else_message, Spec.body_field,
    Spec.text_or_absent.
  destruct (resp_json response) as [body|]; [|reflexivity].
  destruct body; try reflexivity.
  intros [Hd|[d [Hd Hdne]]] [Hm|[m [Hm Hmne]]]; rewrite Hd, Hm; simpl;
    try reflexivity.
  - apply String.eqb_neq in Hmne. now rewrite Hmne.
  - apply String.eqb_neq in Hdne. now rewrite Hdne.
  - apply String.eqb_neq in Hdne. now rewrite Hdne.
Qed.

(** C3, as the code has it. Whenever [fetch] gives a response, each of
    [apiGet], [apiPost], [apiDelete], [apiUpload] and [apiUploadMultiple]
    returns a value [v] if and only if the response is ok and its body
    parses as JSON to [v]; an ok response whose body is not JSON rejects
    with the parser's error. A response that is not ok never returns a
    value and always throws an [ApiError] with the response's status and
    its status text; where the [detail] and the [message] of the body are
    texts or absent, its message is the [detail], else the [message], else
    the status text. *)
Theorem api_helpers_return_json_or_throw_ApiError
  (fetch : Request num -> Outcome (Response num)) (c : ApiCall)
  (response : Response num) :
  fetch (request_of c) = Resolved response ->
  (forall v, call fetch c = Resolved v
             <-> resp_ok response = true /\ resp_json response = Some v)
  /\ (resp_ok response = true -> resp_json response = None ->
      call fetch c = Rejected SyntaxError)
  /\ (resp_ok response = false ->
      (forall v, call fetch c <> Resolved v)
      /\ (exists message,
             call fetch c
             = Rejected (ApiError (resp_status response)
                           (resp_statusText response) message))
      /\ (Spec.text_or_absent (Spec.body_field response "detail") ->
          Spec.text_or_absent (Spec.body_field response "message") ->
          call fetch c
          = Rejected (ApiError (resp_status response)
                        (resp_statusText response)
                        (Spec.detail_else_message response)))).
Proof.
  intro Hf. rewrite (call_is_handleResponse fetch c response Hf).
  split; [|split].
  - intro v. apply handleResponse_resolved.
  - intros Hok Hj. unfold handleResponse, json. now rewrite Hok, Hj.
  - intro Hok. split; [|split].
    + intros v Hv. apply handleResponse_resolved in Hv.
      destruct Hv as [Hv _]. congruence.
    + eexists. now apply handleResponse_rejected.
    + intros Hd Hm. rewrite (handleResponse_rejected response Hok).
      now rewrite (failure_detail_of_texts response Hd Hm).
Qed.

End Responses.

(** C3, as stated, fails: a response can be ok and carry no JSON (a 204
    with an empty body), and then no helper returns a value. *)
Lemma ok_response_without_json_returns_nothing :
  ~ (forall (fetch : Request Z -> Outcome (Response Z)) (c : ApiCall)
            (response : Response Z),
        fetch (request_of c) = Resolved response ->
        ((exists v, call fetch c = Resolved v) <-> resp_ok response = true)).
Proof.
  intro Hclaim.
  pose (response := {| resp_ok := true; resp_status := 204%Z;
                       resp_statusText := "No Content";
                       resp_json := @None (JsValue Z) |}).
  pose (fetch := fun _ : Request Z => Resolved response).
  destruct (Hclaim fetch (CallDelete "/documents/d1") response eq_refl)
    as [_ Hback].
  destruct (Hback eq_refl) as [v Hv]. discriminate Hv.
Qed.

(** C10, as stated, fails: an endpoint that holds a [?] brings a query of
    its own, and the URL of the request then has a key that the params
    record does not have. *)
Lemma endpoint_with_a_query_brings_a_key :
  ~ (forall (endpoint : string) (params : list (string * JsValue Z))
            (url : URL),
        NoDup (map fst params) ->
        UrlParse.apiGet_url endpoint (Some params) = Some url ->
        forall key, In key (map fst (searchParams url)) ->
                    In key (map fst params)).
Proof.
  intro Hclaim.
  pose (params := [("offset", JsNum 0%Z); ("limit", JsNum 50%Z)]).
  assert (Hnd : NoDup (map fst params)).
  { simpl. repeat (constructor; [simpl; intuition discriminate|]). constructor. }
  specialize (Hclaim "/documents/a?b=1/chunks" params
                {| pathname := "/api/v1/documents/a";
                   searchParams := [("b", "1/chunks"); ("offset", "0");
                                    ("limit", "50")] |}
                Hnd eq_refl "b" (or_introl eq_refl)).
  simpl in Hclaim. intuition discriminate.
Qed.

(** ** The formats of wiki generation *)

Lemma parse_format_supported (name : string) :
  In name Renderer.formats <-> exists f, Renderer.parse_format name = inl f.
Proof.
  unfold Renderer.parse_format, Renderer.formats.
  destruct (String.eqb_spec name "markdown") as [->|H1];
    [split; [eexists; reflexivity|simpl; tauto]|].
  destruct (String.eqb_spec name "html") as [->|H2];
    [split; [eexists; reflexivity|simpl; tauto]|].
  destruct (String.eqb_spec name "text") as [->|H3];
    [split; [eexists; reflexivity|simpl; tauto]|].
  destruct (String.eqb_spec name "structured") as [->|H4];
    [split; [eexists; reflexivity|simpl; tauto]|].
  split.
  - simpl. intros [E|[E|[E|[E|[]]]]]; congruence.
  - intros [f E]. discriminate E.
Qed.

Lemma parse_format_unsupported (name : string) :
  ~ In name Renderer.formats
  <-> Renderer.parse_format name = inr Renderer.InvalidArgument.
Proof.
  rewrite parse_format_supported. split.
  - intro Hno. unfold Renderer.parse_format in *.
    destruct (name =? "markdown"); [exfalso; apply Hno; eexists; reflexivity|].
    destruct (name =? "html"); [exfalso; apply Hno; eexists; reflexivity|].
    destruct (name =? "text"); [exfalso; apply Hno; eexists; reflexivity|].
    destruct (name =? "structured");
      [exfalso; apply Hno; eexists; reflexivity|].
    reflexivity.
  - intros E [f Hf]. congruence.
Qed.

(** C1, as the code has it. The renderer accepts exactly markdown, html,
    text and structured, and any other format fails with InvalidArgument;
    the formats the client can request are exactly markdown, html, json and
    text, and the one it requests is the [format] parameter that
    [generateWikiSimple] sends. Of the client's four, markdown, html and
    text are formats of the renderer and json is not; structured cannot be
    requested. *)
Theorem wiki_formats_of_renderer_and_client :
  (forall name,
      In name Renderer.formats <-> exists f, Renderer.parse_format name = inl f)
  /\ (forall name,
        ~ In name Renderer.formats
        <-> Renderer.parse_format name = inr Renderer.InvalidArgument)
  /\ (forall name,
        In name OutputFormat_literals <-> exists f, OutputFormat_wire f = name)
  /\ (forall (num : Type) (N : JsNumber num) query maxSources format
             includeSources,
        lookup "format"
          (Wiki.generateWikiSimple_params (num := num) query maxSources
             format includeSources)
        = JsString (OutputFormat_wire (Search.or_default fmt_html format)))
  /\ (forall f, In (OutputFormat_wire f) Renderer.formats <-> f <> fmt_json)
  /\ (forall f, OutputFormat_wire f <> "structured").
Proof.
  split; [exact parse_format_supported|].
  split; [exact parse_format_unsupported|].
  split; [|split; [|split]].
  - intro name. unfold OutputFormat_literals. split.
    + simpl. intros [E|[E|[E|[E|[]]]]]; subst name.
      * now exists fmt_markdown.
      * now exists fmt_html.
      * now exists fmt_json.
      * now exists fmt_text.
    + intros [f <-]. destruct f; simpl; tauto.
  - reflexivity.
  - intro f. unfold Renderer.formats.
    destruct f; simpl; split; try discriminate; try tauto;
      try (intros _; tauto).
    intros [E|[E|[E|[E|[]]]]]; discriminate E.
  - intro f. destruct f; discriminate.
Qed.

(** C1, as stated, fails: json is a format the client can request and it
    is not one of markdown, html, text, structured. *)
Lemma client_can_request_json :
  ~ (forall f : OutputFormat, In (OutputFormat_wire f) Renderer.formats).
Proof.
  intro Hall. specialize (Hall fmt_json). simpl in Hall.
  destruct Hall as [E|[E|[E|[E|[]]]]]; discriminate E.
Qed.

(** ** The reports of a batch upload *)

Section Upload.
Context {num : Type}.
Import UploadZone.

Lemma find_by_filter {A : Type} (p : A -> bool) (l : list A) :
  find p l = hd_error (filter p l).
Proof.
  induction l as [|x l IH]; simpl; [reflexivity|].
  destruct (p x); [reflexivity|exact IH].
Qed.

Lemma pending_entry_is_submitted (files : list (UploadResult num))
  (i : nat) (f : UploadResult num) :
  nth_error files i = Some f -> up_status f = pending ->
  pendingFiles files <> [].
Proof.
  intros Hi Hp E. apply nth_error_In in Hi.
  assert (Hin : In f (pendingFiles files)).
  { apply filter_In. split; [assumption|]. now rewrite Hp. }
  rewrite E in Hin. exact Hin.
Qed.

Lemma handleUpload_resolved
  (mutateAsync : list File -> Outcome (list (IngestResponse num)))
  (files : list (UploadResult num)) (results : list (IngestResponse num)) :
  pendingFiles files <> [] ->
  mutateAsync (map up_file (pendingFiles files)) = Resolved results ->
  handleUpload mutateAsync files
  = update_with_results results (mark_uploading files).
Proof.
  intros Hne Hm. unfold handleUpload.
  destruct (pendingFiles files) as [|p ps]; [contradiction|].
  now rewrite Hm.
Qed.

Lemma find_first {A : Type} (p : A -> bool) (before : list A) (x : A)
  (rest : list A) :
  Forall (fun y => p y = false) before -> p x = true ->
  find p (before ++ x :: rest) = Some x.
Proof.
  intros Hb Hx. induction Hb as [|y before Hy _ IH]; simpl.
  - now rewrite Hx.
  - now rewrite Hy.
Qed.

Lemma find_none {A : Type} (p : A -> bool) (l : list A) :
  Forall (fun y => p y = false) l -> find p l = None.
Proof.
  induction 1 as [|y l Hy _ IH]; simpl; [reflexivity|now rewrite Hy].
Qed.

Lemma join_is_concat (sep : string) (parts : list string) :
  join sep parts = String.concat sep parts.
Proof.
  induction parts as [|x parts IH]; [reflexivity|].
  simpl. destruct parts; [reflexivity|now rewrite <- IH].
Qed.

Lemma join_is_concat_map (sep : string) (o : option (list string)) :
  option_map (join sep) o = option_map (String.concat sep) o.
Proof. destruct o; simpl; [now rewrite join_is_concat|reflexivity]. Qed.

(** C4, as the code has it. When the batch request returns its list of
    responses, every submitted file (an entry that was pending) is reported
    by the first response of the list that carries its file name: its
    status is success exactly when that response's status is the string
    success, and error otherwise, with that response as its result and that
    response's errors, joined by a comma and a space, as its error text.
    When no response carries its file name it is error with "Unknown
    error". Responses that carry another file name do not change the
    report: any other list with the same responses for this file name gives
    the same report. *)
Theorem batch_upload_reports_by_first_response_with_the_name
  (mutateAsync : list File -> Outcome (list (IngestResponse num)))
  (files : list (UploadResult num)) (results : list (IngestResponse num))
  (i : nat) (f : UploadResult num) :
  mutateAsync (map up_file (pendingFiles files)) = Resolved results ->
  nth_error files i = Some f ->
  up_status f = pending ->
  exists f',
    nth_error (handleUpload mutateAsync files) i = Some f'
    /\ up_file f' = up_file f
    /\ (forall before r rest,
          results = before ++ r :: rest ->
          Forall (fun r' => ingest_filename r' <> file_name (up_file f))
            before ->
          ingest_filename r = file_name (up_file f) ->
          (up_status f' = success <-> ingest_status r = "success")
          /\ (up_status f' = error <-> ingest_status r <> "success")
          /\ up_result f' = Some r
          /\ up_error f' = option_map (String.concat ", ") (ingest_errors r))
    /\ (Forall (fun r' => ingest_filename r' <> file_name (up_file f))
          results ->
        up_status f' = error /\ up_result f' = up_result f
        /\ up_error f' = Some "Unknown error")
    /\ (forall mutateAsync' results',
          mutateAsync' (map up_file (pendingFiles files)) = Resolved results' ->
          filter (fun r => ingest_filename r =? file_name (up_file f)) results'
          = filter (fun r => ingest_filename r =? file_name (up_file f)) results ->
          nth_error (handleUpload mutateAsync' files) i = Some f').
Proof.
  intros Hm Hi Hp.
  pose proof (pending_entry_is_submitted files i f Hi Hp) as Hne.
  pose (marked := {| up_file := up_file f; up_status := uploading;
                     up_result := up_result f; up_error := up_error f |}).
  assert (Hnth : forall m rs,
             m (map up_file (pendingFiles files)) = Resolved rs ->
             nth_error (handleUpload m files) i = Some (update_with rs marked)).
  { intros m rs Hmr. rewrite (handleUpload_resolved m files rs Hne Hmr).
    unfold update_with_results, mark_uploading.
    rewrite !nth_error_map, Hi. simpl. now rewrite Hp. }
  assert (Hother : forall l,
             Forall (fun r' : IngestResponse num =>
                       ingest_filename r' <> file_name (up_file f)) l ->
             Forall (fun r' : IngestResponse num =>
                       (ingest_filename r' =? file_name (up_file f)) = false)
               l).
  { intros l Hl. eapply Forall_impl; [|exact Hl].
    intros r' Hr'. now apply String.eqb_neq. }
  exists (update_with results marked).
  split; [now apply Hnth|].
  unfold update_with, find_result. simpl.
  split; [|split; [|split]].
  - destruct (find _ results); reflexivity.
  - intros before r rest -> Hbefore Hname.
    rewrite (find_first _ before r rest (Hother _ Hbefore))
      by now apply String.eqb_eq.
    simpl. rewrite join_is_concat_map.
    destruct (String.eqb_spec (ingest_status r) "success") as [E|E].
    + split; [tauto|]. split; [|split; reflexivity].
      split; [discriminate|contradiction].
    + split; [|split; [tauto|split; reflexivity]].
      split; [discriminate|contradiction].
  - intro Hnone. rewrite (find_none _ results (Hother _ Hnone)).
    simpl. repeat split.
  - intros m' rs' Hm' Hagree. rewrite (Hnth m' rs' Hm').
    f_equal. unfold update_with, find_result. simpl.
    now rewrite !find_by_filter, Hagree.
Qed.

(** Two entries with one file name get one report. *)
Lemma same_name_same_report (results : list (IngestResponse num))
  (f g : UploadResult num) :
  file_name (up_file f) = file_name (up_file g) ->
  up_status f = uploading -> up_status g = uploading ->
  up_status (update_with results f) = up_status (update_with results g)
  /\ up_error (update_with results f) = up_error (update_with results g).
Proof.
  intros Hn Hf Hg. unfold update_with, find_result.
  rewrite Hf, Hg, Hn. simpl.
  destruct (find _ results); split; reflexivity.
Qed.

End Upload.

(** ** The HTML rendering and the preview pane *)

Section Rendering.
Context {num : Type}.
Import Renderer.

Lemma scan_app (a b : string) (inside : option string) :
  scan inside (a ++ b)
  = (fst (scan inside a) ++ fst (scan (snd (scan inside a)) b),
     snd (scan (snd (scan inside a)) b)).
Proof.
  revert inside. induction a as [|c a IH]; intro inside; simpl.
  - now destruct (scan inside b).
  - destruct inside as [name|].
    + destruct (Ascii.eqb c ">").
      * rewrite (IH None). destruct (scan None a) as [found last]. reflexivity.
      * apply IH.
    + destruct (Ascii.eqb c "<"); apply IH.
Qed.

Lemma escape_char_cases (c : ascii) :
  escape_char c = "&amp;" \/ escape_char c = "&lt;" \/ escape_char c = "&gt;"
  \/ escape_char c = "&quot;" \/ escape_char c = "&#x27;"
  \/ (escape_char c = String c ""
      /\ Ascii.eqb c "<" = false /\ Ascii.eqb c ">" = false
      /\ Ascii.eqb c "034" = false /\ Ascii.eqb c "'" = false).
Proof.
  unfold escape_char.
  destruct (Ascii.eqb c "&"); [tauto|].
  destruct (Ascii.eqb c "<"); [tauto|].
  destruct (Ascii.eqb c ">"); [tauto|].
  destruct (Ascii.eqb c "034"); [tauto|].
  destruct (Ascii.eqb c "'"); [tauto|].
  repeat right. tauto.
Qed.

Lemma scan_escape_char (c : ascii) : scan None (escape_char c) = ([], None).
Proof.
  destruct (escape_char_cases c) as [E|[E|[E|[E|[E|[E [Hlt _]]]]]]];
    rewrite E; try reflexivity.
  simpl. now rewrite Hlt.
Qed.

(** Escaped text opens no tag. *)
Lemma scan_escape (s : string) : scan None (escape s) = ([], None).
Proof.
  induction s as [|c s IH]; simpl; [reflexivity|].
  rewrite scan_app, scan_escape_char. simpl. now rewrite IH.
Qed.

Lemma markup_free_app (a b : string) :
  markup_free (a ++ b) = markup_free a && markup_free b.
Proof.
  induction a as [|c a IH]; simpl; [reflexivity|].
  now rewrite IH, andb_assoc.
Qed.

(** Escaped text holds none of the characters [<], [>] and the quotes. *)
Lemma markup_free_escape (s : string) : markup_free (escape s) = true.
Proof.
  induction s as [|c s IH]; simpl; [reflexivity|].
  rewrite markup_free_app, IH, andb_true_r.
  destruct (escape_char_cases c) as [E|[E|[E|[E|[E|[E [H1 [H2 [H3 H4]]]]]]]]];
    rewrite E; try reflexivity.
  simpl. now rewrite H1, H2, H3, H4.
Qed.

Lemma layout_is_markup (m : string) : In m layout -> layout_markup m = true.
Proof.
  assert (Hall : forallb layout_markup layout = true) by reflexivity.
  rewrite forallb_forall in Hall. exact (Hall m).
Qed.

Lemma layout_markup_scan (m : string) :
  In m layout ->
  snd (scan None m) = None
  /\ Forall (fun t => In t layout_tags) (fst (scan None m)).
Proof.
  intro Hin. apply layout_is_markup in Hin. revert Hin.
  unfold layout_markup. destruct (scan None m) as [found [name|]];
    [discriminate|].
  intro Hall. split; [reflexivity|]. simpl.
  rewrite forallb_forall in Hall. apply Forall_forall. intros t Ht.
  specialize (Hall t Ht). apply existsb_exists in Hall.
  destruct Hall as [x [Hx E]]. apply String.eqb_eq in E. now subst.
Qed.

Lemma pieces_scan (pieces : list Piece) :
  Forall layout_piece pieces ->
  snd (scan None (String.concat "" (map emit pieces))) = None
  /\ Forall (fun t => In t layout_tags)
       (fst (scan None (String.concat "" (map emit pieces)))).
Proof.
  assert (Hcons : forall p ps,
             String.concat "" (map emit (p :: ps))
             = (emit p ++ String.concat "" (map emit ps))%string).
  { intros p ps. simpl. destruct (map emit ps) as [|x xs].
    - simpl. clear. induction (emit p) as [|c e IH]; simpl; congruence.
    - reflexivity. }
  induction 1 as [|p ps Hp Hps [IHs IHt]].
  - simpl. split; constructor.
  - rewrite Hcons, scan_app. simpl fst; simpl snd.
    assert (Hone : snd (scan None (emit p)) = None
                   /\ Forall (fun t => In t layout_tags)
                        (fst (scan None (emit p)))).
    { destruct p as [m|s]; simpl.
      - now apply layout_markup_scan.
      - rewrite scan_escape. split; constructor. }
    destruct Hone as [Hs Ht]. rewrite Hs. split; [exact IHs|].
    apply Forall_app. split; assumption.
Qed.

Lemma source_pieces_layout (w : WikiSource num) :
  Forall layout_piece (source_pieces w).
Proof.
  unfold source_pieces.
  repeat (apply Forall_cons; [simpl; tauto|]). constructor.
Qed.

Lemma citation_pieces_layout (include_sources : bool)
  (sources : list (WikiSource num)) :
  Forall layout_piece (citation_pieces include_sources sources).
Proof.
  unfold citation_pieces. destruct include_sources; [|constructor].
  apply Forall_app. split; [constructor; [simpl; tauto|constructor]|].
  apply Forall_app. split; [|constructor; [simpl; tauto|constructor]].
  induction sources as [|w ws IH]; cbn [flat_map]; [constructor|].
  apply Forall_app. split; [apply source_pieces_layout|exact IH].
Qed.

Lemma section_pieces_layout (include_sources : bool) :
  forall s : WikiSection num,
    Forall layout_piece (section_pieces include_sources s).
Proof.
  fix IH 1. intros [heading content sources confidence subsections].
  simpl.
  repeat (apply Forall_cons; [simpl; tauto|]).
  apply Forall_app. split; [apply citation_pieces_layout|].
  apply Forall_app. split; [|constructor; [simpl; tauto|constructor]].
  induction subsections as [|sub rest IHrest]; [constructor|].
  apply Forall_app. split; [apply IH|exact IHrest].
Qed.

Lemma entry_pieces_layout (include_sources : bool) (entry : WikiEntry num) :
  Forall layout_piece (entry_pieces include_sources entry).
Proof.
  unfold entry_pieces.
  repeat (apply Forall_cons; [simpl; tauto|]).
  apply Forall_app. split.
  - induction (sections entry) as [|s ss IH]; cbn [flat_map]; [constructor|].
    apply Forall_app. split; [apply section_pieces_layout|exact IH].
  - apply Forall_app. split; [apply citation_pieces_layout|].
    constructor; [simpl; tauto|constructor].
Qed.

(** C2. For every entry, with or without its citation lists, the HTML
    rendering is a sequence of pieces, each either one of the constant
    markups of the renderer's layout or a text of the entry put through
    [escape], which leaves no [<], [>] or quote in it; so the markup that
    the preview pane hands to the browser, which is the rendering as
    received, holds no tag but those of the layout and ends outside a tag,
    whatever the texts of the entry are. *)
Theorem html_rendering_escapes_source_text
  (include_sources : bool) (entry : WikiEntry num) :
  let content := render_html include_sources entry in
  let data := {| wr_entry := entry; wr_content := content;
                 wr_format := "html" |} in
  WikiContent.innerHTML data
  = String.concat "" (map emit (entry_pieces include_sources entry))
  /\ Forall (fun p => match p with
                      | Markup m => In m layout
                      | SourceText s =>
                          emit p = escape s /\ markup_free (emit p) = true
                      end)
       (entry_pieces include_sources entry)
  /\ Forall (fun t => In t layout_tags) (tags_of (WikiContent.innerHTML data))
  /\ snd (scan None (WikiContent.innerHTML data)) = None.
Proof.
  intros content data.
  destruct (pieces_scan _ (entry_pieces_layout include_sources entry))
    as [Hend Htags].
  split; [reflexivity|]. split; [|split].
  - eapply Forall_impl; [|apply entry_pieces_layout].
    intros [m|s] Hp; [exact Hp|].
    split; [reflexivity|apply markup_free_escape].
  - exact Htags.
  - exact Hend.
Qed.

End Rendering.

(* ================================================================== *)
(** * Concrete runs                                                    *)
(* ================================================================== *)

Section Runs.
Import SearchFilters.

Example toggle_adds : toggleType [pdf; html] epub = [pdf; html; epub].
Proof. reflexivity. Qed.

Example toggle_removes : toggleType [pdf; html; epub] html = [pdf; epub].
Proof. reflexivity. Qed.

Example clicks_run : SearchPage.selection_after [0; 4; 0; 6; 9]%nat = [html; text].
Proof. reflexivity. Qed.

Example search_with_types :
  searchParams
    (req_url (Search.searchSimple_request (num := Z) "rivers" (Some 5%Z) None
                (Some [pdf; markdown])))
  = [("q", "rivers"); ("limit", "5"); ("min_score", "0");
     ("document_type", "pdf"); ("document_type", "markdown")].
Proof. reflexivity. Qed.

Example search_without_types :
  searchParams
    (req_url (Search.searchSimple_request (num := Z) "rivers" None None (Some [])))
  = [("q", "rivers"); ("limit", "10"); ("min_score", "0")].
Proof. reflexivity. Qed.

(** A validation failure whose [detail] is a list of objects. *)
Example detail_that_is_a_list :
  handleResponse (num := Z)
    {| resp_ok := false; resp_status := 422%Z;
       resp_statusText := "Unprocessable Entity";
       resp_json := Some (JsObject [("detail", JsArray [JsObject []])]) |}
  = Rejected (ApiError 422%Z "Unprocessable Entity" "[object Object]").
Proof. reflexivity. Qed.

Example empty_detail_falls_through :
  handleResponse (num := Z)
    {| resp_ok := false; resp_status := 500%Z;
       resp_statusText := "Internal Server Error";
       resp_json := Some (JsObject [("detail", JsString "");
                                    ("message", JsString "store is down")]) |}
  = Rejected (ApiError 500%Z "Internal Server Error" "store is down").
Proof. reflexivity. Qed.

Example escape_script :
  Renderer.escape "<script>alert('x')</script>"
  = "&lt;script&gt;alert(&#x27;x&#x27;)&lt;/script&gt;".
Proof. reflexivity. Qed.

Example rendering_of_a_hostile_title :
  Renderer.render_html (num := Z) false
    {| entry_id := "e1"; title := "<img src=x>"; summary := "a & b";
       sections := []; all_sources := []; generated_at := ""; query := "q" |}
  = "<article><h1>&lt;img src=x&gt;</h1><p>a &amp; b</p></article>".
Proof. reflexivity. Qed.

End Runs.

(** The run of C10's theorem on a record with an [undefined] and a [null]
    entry. *)
Lemma apiGet_query_is_the_present_params_run :
  NoDup (map fst [("q", JsString "rivers"); ("limit", JsNum 10%Z);
                  ("cursor", JsUndefined); ("tag", JsNull)])
  /\ Paths.occurs "?" "/search" = false
  /\ searchParams
       (req_url
          (apiGet_request "/search"
             (Some [("q", JsString "rivers"); ("limit", JsNum 10%Z);
                    ("cursor", JsUndefined); ("tag", JsNull)])))
     = [("q", "rivers"); ("limit", "10")].
Proof.
  assert (Hnd : NoDup (map fst [("q", JsString "rivers"); ("limit", JsNum 10%Z);
                                ("cursor", @JsUndefined Z); ("tag", JsNull)])).
  { simpl. repeat (constructor; [simpl; intuition discriminate|]). constructor. }
  split; [exact Hnd|]. split; [reflexivity|].
  exact (proj1 (apiGet_query_is_the_present_params "/search" _ Hnd eq_refl)).
Defined.

(** The run of C3's theorem on a 404 with a [detail]. *)
Lemma api_helpers_return_json_or_throw_ApiError_run :
  let response :=
    {| resp_ok := false; resp_status := 404%Z; resp_statusText := "Not Found";
       resp_json := Some (JsObject [("detail", JsString "Document not found")]) |} in
  let fetch := fun _ : Request Z => Resolved response in
  fetch (request_of (CallGet "/documents/d1" None)) = Resolved response
  /\ resp_ok response = false
  /\ Spec.text_or_absent (Spec.body_field response "detail")
  /\ Spec.text_or_absent (Spec.body_field response "message")
  /\ call fetch (CallGet "/documents/d1" None)
     = Rejected (ApiError 404%Z "Not Found" "Document not found").
Proof.
  intros response fetch.
  assert (Hd : Spec.text_or_absent (Spec.body_field response "detail")).
  { right. exists "Document not found". split; [reflexivity|discriminate]. }
  assert (Hm : Spec.text_or_absent (Spec.body_field response "message")).
  { left. reflexivity. }
  split; [reflexivity|]. split; [reflexivity|].
  split; [exact Hd|]. split; [exact Hm|].
  exact (proj2 (proj2 (proj2 (proj2
           (api_helpers_return_json_or_throw_ApiError fetch
              (CallGet "/documents/d1" None) response eq_refl)) eq_refl))
           Hd Hm).
Defined.

(** The run of C4's theorem on a batch of two, the first of which
    failed. *)
Lemma batch_upload_reports_by_first_response_with_the_name_run :
  let a := {| file_name := "a.pdf"; file_size := 2048%Z |} in
  let b := {| file_name := "b.txt"; file_size := 12%Z |} in
  let entry file :=
    {| UploadZone.up_file := file; UploadZone.up_status := UploadZone.pending;
       UploadZone.up_result := @None (IngestResponse Z);
       UploadZone.up_error := None |} in
  let files := [entry a; entry b] in
  let failed :=
    {| ingest_document_id := ""; ingest_filename := "a.pdf";
       ingest_document_type := pdf; ingest_chunks_created := 0%Z;
       ingest_status := "error";
       ingest_errors := Some ["no text layer"; "ocr failed"] |} in
  let stored :=
    {| ingest_document_id := "d2"; ingest_filename := "b.txt";
       ingest_document_type := text; ingest_chunks_created := 3%Z;
       ingest_status := "success"; ingest_errors := Some [] |} in
  let results := [failed; stored] in
  let mutateAsync := fun _ : list File => Resolved results in
  mutateAsync (map UploadZone.up_file (UploadZone.pendingFiles files))
  = Resolved results
  /\ nth_error files 0 = Some (entry a)
  /\ UploadZone.up_status (entry a) = UploadZone.pending
  /\ exists f',
       nth_error (UploadZone.handleUpload mutateAsync files) 0 = Some f'
       /\ UploadZone.up_status f' = UploadZone.error
       /\ UploadZone.up_result f' = Some failed
       /\ UploadZone.up_error f' = Some "no text layer, ocr failed".
Proof.
  intros a b entry files failed stored results mutateAsync.
  split; [reflexivity|]. split; [reflexivity|]. split; [reflexivity|].
  destruct (batch_upload_reports_by_first_response_with_the_name
              mutateAsync files results 0 (entry a) eq_refl eq_refl eq_refl)
    as [f' [Hnth [_ [Hfirst _]]]].
  exists f'. split; [exact Hnth|].
  destruct (Hfirst [] failed [stored] eq_refl (Forall_nil _) eq_refl)
    as [_ [Herror [Hresult Htext]]].
  split; [apply Herror; discriminate|]. split; [exact Hresult|exact Htext].
Defined.

(** C4, as stated, fails: of two files named a.pdf the second is reported
    by the first file's response, so whether the first file failed decides
    the second file's status, although the second file's own response, and
    the file name of every response, is the same in both batches. *)
Lemma same_name_sibling_failure_changes_the_report :
  ~ (forall (mutateAsync mutateAsync' :
               list File -> Outcome (list (IngestResponse Z)))
            (files : list (UploadZone.UploadResult Z))
            (results results' : list (IngestResponse Z)) (i k : nat),
        i <> k ->
        mutateAsync (map UploadZone.up_file (UploadZone.pendingFiles files))
        = Resolved results ->
        mutateAsync' (map UploadZone.up_file (UploadZone.pendingFiles files))
        = Resolved results' ->
        (forall j, j <> k -> nth_error results' j = nth_error results j) ->
        map ingest_filename results' = map ingest_filename results ->
        option_map UploadZone.up_status
          (nth_error (UploadZone.handleUpload mutateAsync' files) i)
        = option_map UploadZone.up_status
            (nth_error (UploadZone.handleUpload mutateAsync files) i)).
Proof.
  intro Hclaim.
  pose (entry := {| UploadZone.up_file :=
                      {| file_name := "a.pdf"; file_size := 1%Z |};
                    UploadZone.up_status := UploadZone.pending;
                    UploadZone.up_result := @None (IngestResponse Z);
                    UploadZone.up_error := None |}).
  pose (response status errors :=
          {| ingest_document_id := "d"; ingest_filename := "a.pdf";
             ingest_document_type := pdf; ingest_chunks_created := 1%Z;
             ingest_status := status; ingest_errors := Some errors |}).
  pose (results := [response "error" ["unreadable"]; response "success" []]).
  pose (results' := [response "success" []; response "success" []]).
  specialize (Hclaim (fun _ => Resolved results) (fun _ => Resolved results')
                [entry; entry] results results' 1%nat 0%nat).
  assert (Hrest : forall j : nat,
             j <> 0%nat -> nth_error results' j = nth_error results j).
  { intros [|j] Hj; [contradiction|reflexivity]. }
  specialize (Hclaim (fun E => Nat.neq_succ_0 0 E) eq_refl eq_refl Hrest
                eq_refl).
  discriminate Hclaim.
Qed.

(* ================================================================== *)
(** * Further properties of the code                                   *)
(* ================================================================== *)

(** ** The upload list *)

Section UploadList.
Context {num : Type} {N : JsNumber num}.
Import UploadZone UploadList.

Lemma handleUpload_unfold
  (mutateAsync : list File -> Outcome (list (IngestResponse num)))
  (files : list (UploadResult num)) :
  pendingFiles files <> [] ->
  handleUpload mutateAsync files
  = match mutateAsync (map up_file (pendingFiles files)) with
    | Resolved results => update_with_results results (mark_uploading files)
    | Rejected e => fail_uploading e (mark_uploading files)
    end.
Proof.
  intro Hne. unfold handleUpload.
  destruct (pendingFiles files) as [|p ps]; [contradiction|reflexivity].
Qed.

Lemma update_with_settles (results : list (IngestResponse num))
  (f : UploadResult num) :
  up_status f <> pending ->
  up_file (update_with results f) = up_file f
  /\ settled (update_with results f).
Proof.
  intro Hp. unfold update_with, settled.
  destruct (up_status f) eqn:E; simpl; try contradiction; rewrite ?E;
    try (split; [reflexivity|tauto]).
  destruct (find_result results f) as [r|]; simpl.
  - split; [reflexivity|]. destruct (ingest_status r =? "success"); tauto.
  - split; [reflexivity|tauto].
Qed.

Lemma fail_settles (e : JsError) (f : UploadResult num) :
  up_status f <> pending ->
  let f' := if is_status (up_status f) uploading then
              {| up_file := up_file f; up_status := error;
                 up_result := up_result f;
                 up_error := Some (error_toString e) |}
            else f in
  up_file f' = up_file f /\ settled f'.
Proof.
  intro Hp. unfold settled.
  destruct (up_status f) eqn:E; simpl; try contradiction; rewrite ?E;
    split; try reflexivity; tauto.
Qed.

Lemma mark_not_pending (f : UploadResult num) :
  let f' := if is_status (up_status f) pending then
              {| up_file := up_file f; up_status := uploading;
                 up_result := up_result f; up_error := up_error f |}
            else f in
  up_file f' = up_file f /\ up_status f' <> pending.
Proof.
  destruct (up_status f) eqn:E; simpl; rewrite ?E; split;
    try reflexivity; discriminate.
Qed.

Lemma settled_is_cleared (files : list (UploadResult num)) :
  Forall settled files ->
  clearCompleted files = [] /\ pendingCount files = 0%nat.
Proof.
  unfold clearCompleted, pendingCount.
  induction 1 as [|f fs Hf Hfs [IH1 IH2]]; [split; reflexivity|].
  simpl. destruct Hf as [E|E]; rewrite E; simpl; split; assumption.
Qed.

(** X3. [handleUpload] never adds, drops or reorders entries. With nothing
    pending it leaves the list as it is, whatever the network would do;
    with something pending, every entry of the list ends as success or
    error, whether the batch request returned or failed, so that no entry is
    left pending or uploading and "Clear completed" then empties the
    list. *)
Theorem handleUpload_settles_the_list
  (mutateAsync : list File -> Outcome (list (IngestResponse num)))
  (files : list (UploadResult num)) :
  let final := handleUpload mutateAsync files in
  map up_file final = map up_file files
  /\ match pendingFiles files with
     | [] => final = files
     | _ :: _ =>
         Forall (fun f => up_status f = success \/ up_status f = error) final
         /\ pendingCount final = 0%nat
         /\ clearCompleted final = []
     end.
Proof.
  intro final.
  destruct (pendingFiles files) as [|p ps] eqn:Hp.
  - unfold final, handleUpload. rewrite Hp. split; reflexivity.
  - assert (Hne : pendingFiles files <> []) by (rewrite Hp; discriminate).
    assert (Hall : map up_file final = map up_file files
                   /\ Forall settled final).
    { unfold final. rewrite (handleUpload_unfold _ _ Hne).
      destruct (mutateAsync _) as [results|e];
        unfold update_with_results, fail_uploading, mark_uploading;
        rewrite !map_map; split.
      - apply map_ext. intro f.
        destruct (mark_not_pending f) as [Hfile Hnp]. cbv zeta in *.
        destruct (update_with_settles results _ Hnp) as [Hfile' _].
        now rewrite Hfile'.
      - apply Forall_map, Forall_forall. intros f _.
        destruct (mark_not_pending f) as [_ Hnp]. cbv zeta in *.
        now destruct (update_with_settles results _ Hnp).
      - apply map_ext. intro f.
        destruct (mark_not_pending f) as [Hfile Hnp]. cbv zeta in *.
        destruct (fail_settles e _ Hnp) as [Hfile' _]. cbv zeta in *.
        now rewrite Hfile'.
      - apply Forall_map, Forall_forall. intros f _.
        destruct (mark_not_pending f) as [_ Hnp]. cbv zeta in *.
        now destruct (fail_settles e _ Hnp). }
    destruct Hall as [Hfiles Hsettled].
    split; [exact Hfiles|]. split; [exact Hsettled|].
    destruct (settled_is_cleared _ Hsettled). tauto.
Qed.

End UploadList.

Section UploadRequests.
Context {num : Type} {N : JsNumber num}.
Import UploadZone UploadList.

Variable as_IngestResponses : JsValue num -> list (IngestResponse num).

(** X1. The batch request of [handleUpload] is a POST to
    /api/v1/ingest/batch whose form holds one [files] entry per pending
    entry of the list, in list order, and nothing else: files that are
    uploading, uploaded or failed are not sent again. The list after the
    handler depends on the network through this one request only. *)
Theorem handleUpload_sends_the_pending_files
  (fetch fetch' : Request num -> Outcome (Response num))
  (files : list (UploadResult num)) :
  let request :=
    apiUploadMultiple_request "/ingest/batch"
      (map up_file (pendingFiles files)) in
  fetch request = fetch' request ->
  req_method request = POST
  /\ pathname (req_url request) = "/api/v1/ingest/batch"
  /\ req_body request
     = Some (FormData
               (map (fun f => ("files", FormFile (up_file f)))
                  (pendingFiles files)))
  /\ handleUpload (Documents.uploadDocuments fetch as_IngestResponses) files
     = handleUpload (Documents.uploadDocuments fetch' as_IngestResponses) files.
Proof.
  intros request Hsame.
  split; [reflexivity|]. split; [reflexivity|]. split.
  - unfold request, apiUploadMultiple_request; simpl. now rewrite map_map.
  - unfold handleUpload.
    destruct (pendingFiles files) as [|p ps] eqn:Hp; [reflexivity|].
    unfold Documents.uploadDocuments, apiUploadMultiple.
    fold request. now rewrite Hsame.
Qed.

(** X2. When the server answers the batch request with a response that is
    not ok, every entry that was pending or uploading ends as error, with
    the text of the [ApiError] as its error text: "ApiError: " followed by
    the body's [detail], else its [message], else the status text. Entries
    that had already ended are left as they were. *)
Theorem failed_batch_marks_every_pending_file
  (fetch : Request num -> Outcome (Response num))
  (files : list (UploadResult num)) (response : Response num)
  (i : nat) (f : UploadResult num) :
  pendingFiles files <> [] ->
  fetch (apiUploadMultiple_request "/ingest/batch"
           (map up_file (pendingFiles files)))
  = Resolved response ->
  resp_ok response = false ->
  nth_error files i = Some f ->
  nth_error
    (handleUpload (Documents.uploadDocuments fetch as_IngestResponses) files) i
  = Some
      match up_status f with
      | pending | uploading =>
          {| up_file := up_file f; up_status := error;
             up_result := up_result f;
             up_error :=
               Some (if Spec.failure_detail response =? "" then "ApiError"
                     else ("ApiError: " ++ Spec.failure_detail response)%string) |}
      | success | error => f
      end.
Proof.
  intros Hne Hfetch Hok Hi.
  rewrite (handleUpload_unfold _ _ Hne).
  unfold Documents.uploadDocuments, apiUploadMultiple. rewrite Hfetch. simpl.
  rewrite (handleResponse_rejected response Hok). simpl.
  unfold fail_uploading, mark_uploading. rewrite !nth_error_map, Hi. simpl.
  destruct f as [file status result err].
  destruct status; reflexivity.
Qed.

(** X4. "Clear completed" keeps the entries that are pending or uploading,
    in their order, and drops every other one, the failed ones with the
    uploaded ones: the pending entries are the same before and after, no
    success is left, and clearing twice is clearing once. *)
Theorem clearCompleted_keeps_the_unfinished
  (files : list (UploadResult num)) :
  Forall (fun f => up_status f = pending \/ up_status f = uploading)
    (clearCompleted files)
  /\ pendingFiles (clearCompleted files) = pendingFiles files
  /\ pendingCount (clearCompleted files) = pendingCount files
  /\ successCount (clearCompleted files) = 0%nat
  /\ clearCompleted (clearCompleted files) = clearCompleted files
  /\ (length (clearCompleted files)
      + length (filter (fun f => is_status (up_status f) success
                                 || is_status (up_status f) error) files)
      = length files)%nat.
Proof.
  unfold clearCompleted, pendingCount, successCount, pendingFiles.
  induction files as [|f fs [IH1 [IH2 [IH3 [IH4 [IH5 IH6]]]]]].
  - simpl. repeat split; constructor.
  - simpl. destruct (up_status f) eqn:E; simpl; rewrite ?E; simpl.
    + repeat split; try congruence; try lia. constructor; tauto.
    + repeat split; try congruence; try lia. constructor; tauto.
    + repeat split; try congruence; try lia.
    + repeat split; try congruence; try lia.
Qed.

Lemma filter_indexed_beyond {A : Type} (index : nat) (l : list A) (k : nat) :
  (index < k)%nat ->
  filter_indexed (fun _ i => negb (i =? index)%nat) k l = l.
Proof.
  revert k. induction l as [|x l IH]; intros k Hk; simpl; [reflexivity|].
  destruct (Nat.eqb_spec k index) as [E|_]; [lia|]. simpl.
  f_equal. apply IH. lia.
Qed.

Lemma filter_indexed_removes {A : Type} (index : nat) (l : list A) (k : nat) :
  (k <= index)%nat ->
  filter_indexed (fun _ i => negb (i =? index)%nat) k l
  = firstn (index - k) l ++ skipn (S (index - k)) l.
Proof.
  revert k. induction l as [|x l IH]; intros k Hk.
  - now rewrite firstn_nil, skipn_nil.
  - simpl filter_indexed. destruct (Nat.eqb_spec k index) as [E|Hneq]; simpl.
    + subst k. rewrite Nat.sub_diag. simpl.
      apply filter_indexed_beyond. lia.
    + rewrite IH by lia.
      replace (index - k)%nat with (S (index - S k)) by lia.
      reflexivity.
Qed.

(** X5. [removeFile(index)] takes out the entry at position [index] and no
    other, keeping the order of the rest; a position past the end takes out
    nothing. *)
Theorem removeFile_takes_out_one_position
  (index : nat) (files : list (UploadResult num)) :
  removeFile index files = firstn index files ++ skipn (S index) files
  /\ length (removeFile index files)
     = (if (index <? length files)%nat then (length files - 1)%nat
        else length files)
  /\ (forall j, nth_error (removeFile index files) j
                = if (j <? index)%nat then nth_error files j
                  else nth_error files (S j)).
Proof.
  assert (E : removeFile index files
              = firstn index files ++ skipn (S index) files).
  { unfold removeFile. rewrite filter_indexed_removes by lia.
    now rewrite Nat.sub_0_r. }
  split; [exact E|]. rewrite E. split.
  - rewrite length_app, length_firstn, length_skipn.
    destruct (Nat.ltb_spec index (length files)); lia.
  - intro j. destruct (Nat.ltb_spec j index) as [Hlt|Hge].
    + destruct (Nat.le_gt_cases (length files) j) as [Hout|Hin].
      * rewrite (proj2 (nth_error_None files j) Hout).
        apply nth_error_None. rewrite length_app, length_firstn, length_skipn.
        lia.
      * rewrite nth_error_app1 by (rewrite length_firstn; lia).
        rewrite nth_error_firstn.
        destruct (Nat.ltb_spec j index); [reflexivity|lia].
    + destruct (Nat.le_gt_cases (length files) index) as [Hout|Hin].
      * rewrite firstn_all2 by exact Hout.
        rewrite skipn_all2 by lia. rewrite app_nil_r.
        rewrite (proj2 (nth_error_None files j)) by lia.
        symmetry. apply nth_error_None. lia.
      * rewrite nth_error_app2 by (rewrite length_firstn; lia).
        rewrite length_firstn, nth_error_skipn.
        f_equal. lia.
Qed.

(** X6. Dropping files leaves the entries already listed as they are and
    adds one pending entry per dropped file, in drop order, also for a file
    that is listed already: the pending count grows by the number of
    dropped files. *)
Theorem onDrop_appends_pending_entries
  (prev : list (UploadResult num)) (acceptedFiles : list File) :
  firstn (length prev) (onDrop prev acceptedFiles) = prev
  /\ map up_file (skipn (length prev) (onDrop prev acceptedFiles))
     = acceptedFiles
  /\ Forall (fun f => up_status f = pending /\ up_result f = None
                      /\ up_error f = None)
       (skipn (length prev) (onDrop prev acceptedFiles))
  /\ pendingCount (onDrop prev acceptedFiles)
     = (pendingCount prev + length acceptedFiles)%nat.
Proof.
  unfold onDrop. cbv zeta.
  rewrite firstn_app, Nat.sub_diag, firstn_all, app_nil_r. simpl firstn.
  rewrite skipn_app, Nat.sub_diag, skipn_all. simpl.
  split; [reflexivity|]. split; [|split].
  - rewrite map_map. simpl. apply map_id.
  - apply Forall_map, Forall_forall. intros; simpl. tauto.
  - unfold pendingCount. rewrite filter_app, length_app. f_equal.
    induction acceptedFiles as [|a l IH]; simpl; [reflexivity|].
    now rewrite IH.
Qed.

End UploadRequests.

(** ** The selection of the type filter *)

Section Selection.
Import SearchFilters.

Lemma toggleType_NoDup (s : list DocumentType) (t : DocumentType) :
  NoDup s -> NoDup (toggleType s t).
Proof.
  intro Hs. unfold toggleType. destruct (includes s t) eqn:E.
  - now apply NoDup_filter.
  - apply NoDup_app; [assumption|repeat constructor; simpl; tauto|].
    intros a Ha [<-|[]].
    apply includes_In in Ha. congruence.
Qed.

Lemma clicks_NoDup (clicks : list nat) (s : list DocumentType) :
  NoDup s -> NoDup (fold_left click clicks s).
Proof.
  revert s. induction clicks as [|i clicks IH]; intros s Hs; simpl;
    [assumption|].
  apply IH. unfold click.
  destruct (nth_error DOCUMENT_TYPES i) as [[value label]|]; [|assumption].
  now apply toggleType_NoDup.
Qed.

(** X7. The selection of the search page never holds a type twice,
    whatever is clicked, and so never holds more than seven types. *)
Theorem selection_has_no_duplicates (clicks : list nat) :
  NoDup (SearchPage.selection_after clicks)
  /\ (length (SearchPage.selection_after clicks) <= 7)%nat.
Proof.
  assert (Hnd : NoDup (SearchPage.selection_after clicks)).
  { apply clicks_NoDup. constructor. }
  split; [exact Hnd|].
  change 7%nat with (length (map fst DOCUMENT_TYPES)).
  apply NoDup_incl_length; [exact Hnd|].
  intros t Ht.
  pose proof (clicks_offered clicks [] (Forall_nil _)) as Hall.
  rewrite Forall_forall in Hall. exact (Hall t Ht).
Qed.

Lemma DOCUMENT_TYPES_distinct : NoDup (map fst DOCUMENT_TYPES).
Proof.
  simpl. repeat (constructor; [simpl; intuition discriminate|]). constructor.
Qed.

Lemma click_includes (s : list DocumentType) (i j : nat)
  (value : DocumentType) (label : string) :
  nth_error DOCUMENT_TYPES i = Some (value, label) ->
  includes (click s j) value
  = xorb (includes s value) (j =? i)%nat.
Proof.
  intro Hi. unfold click.
  destruct (Nat.eqb_spec j i) as [->|Hji].
  - rewrite Hi, includes_toggleType.
    destruct (DocumentType_eq_dec value value); [|contradiction].
    now destruct (includes s value).
  - rewrite xorb_false_r.
    destruct (nth_error DOCUMENT_TYPES j) as [[other label']|] eqn:Hj;
      [|reflexivity].
    rewrite includes_toggleType.
    destruct (DocumentType_eq_dec value other) as [E|_]; [|reflexivity].
    exfalso. apply Hji. subst other.
    pose proof (proj1 (NoDup_nth_error (map fst DOCUMENT_TYPES))
                  DOCUMENT_TYPES_distinct j i) as Hinj.
    apply Hinj.
    + rewrite length_map. apply nth_error_Some. now rewrite Hj.
    + now rewrite !nth_error_map, Hi, Hj.
Qed.

Lemma clicks_includes (clicks : list nat) (s : list DocumentType) (i : nat)
  (value : DocumentType) (label : string) :
  nth_error DOCUMENT_TYPES i = Some (value, label) ->
  includes (fold_left click clicks s) value
  = xorb (includes s value) (Nat.odd (count_occ Nat.eq_dec clicks i)).
Proof.
  intro Hi. revert s.
  induction clicks as [|j clicks IH]; intro s; simpl.
  - now rewrite xorb_false_r.
  - rewrite IH, (click_includes s i j value label Hi).
    destruct (Nat.eq_dec j i) as [->|Hji].
    + rewrite Nat.eqb_refl, Nat.odd_succ, <- Nat.negb_odd.
      destruct (includes s value), (Nat.odd (count_occ Nat.eq_dec clicks i));
        reflexivity.
    + destruct (Nat.eqb_spec j i) as [E|_]; [contradiction|].
      now rewrite xorb_false_r.
Qed.

(** X8. A checkbox of the filter row is checked exactly when it has been
    clicked an odd number of times: for the type offered at position [i],
    the selection after a run of clicks includes it if and only if [i]
    occurs an odd number of times in the run. *)
Theorem checkbox_is_checked_after_odd_clicks
  (clicks : list nat) (i : nat) (value : DocumentType) (label : string) :
  nth_error DOCUMENT_TYPES i = Some (value, label) ->
  includes (SearchPage.selection_after clicks) value
  = Nat.odd (count_occ Nat.eq_dec clicks i).
Proof.
  intro Hi. unfold SearchPage.selection_after.
  now rewrite (clicks_includes clicks _ i value label Hi).
Qed.

End Selection.

(** ** Requests of api/search.ts, api/wiki.ts and api/documents.ts *)

Section MoreRequests.
Context {num : Type} {N : JsNumber num}.

(** X9. [searchSimple] reports a response that is not ok in two ways. With
    a non-empty type filter it throws a plain [Error] whose message is
    "Search failed: " and the status text, and the body of the response is
    not read; without one it throws the [ApiError] of the other helpers,
    with the body's detail. For an ok response both ways return the parsed
    body. *)
Theorem searchSimple_failure_depends_on_the_filter
  (fetch : Request num -> Outcome (Response num))
  (q : string) (limit minScore : option num)
  (documentTypes : option (list DocumentType)) (response : Response num) :
  fetch (Search.searchSimple_request q limit minScore documentTypes)
  = Resolved response ->
  Search.searchSimple fetch q limit minScore documentTypes
  = if resp_ok response then json response
    else match documentTypes with
         | Some (_ :: _) =>
             Rejected (Error ("Search failed: " ++ resp_statusText response))
         | _ =>
             Rejected (ApiError (resp_status response)
                         (resp_statusText response)
                         (Spec.failure_detail response))
         end.
Proof.
  intro Hf. unfold Search.searchSimple.
  destruct documentTypes as [[|t ts]|]; rewrite Hf; simpl.
  - destruct (resp_ok response) eqn:Hok.
    + unfold handleResponse. now rewrite Hok.
    + now apply handleResponse_rejected.
  - unfold Search.search_response. now destruct (resp_ok response).
  - destruct (resp_ok response) eqn:Hok.
    + unfold handleResponse. now rewrite Hok.
    + now apply handleResponse_rejected.
Qed.

(** X10. [generateWikiSection] builds a record with its topic, its context
    and its source limit and then sends none of them: whatever the
    arguments, the request is the same POST to /api/v1/wiki/section with no
    body and no query, so two calls with different arguments cannot be told
    apart by the server. *)
Theorem generateWikiSection_sends_no_argument
  (fetch : Request num -> Outcome (Response num))
  (topic : string) (context : option string) (maxSources : option num)
  (topic' : string) (context' : option string) (maxSources' : option num) :
  let request :=
    WikiSectionApi.generateWikiSection_request topic context maxSources in
  In ("topic", JsString topic)
    (WikiSectionApi.generateWikiSection_params topic context maxSources)
  /\ req_method request = POST
  /\ pathname (req_url request) = "/api/v1/wiki/section"
  /\ searchParams (req_url request) = []
  /\ req_body request = None
  /\ WikiSectionApi.generateWikiSection fetch topic context maxSources
     = bind (fetch request) handleResponse
  /\ WikiSectionApi.generateWikiSection_request topic' context' maxSources'
     = request
  /\ WikiSectionApi.generateWikiSection fetch topic' context' maxSources'
     = WikiSectionApi.generateWikiSection fetch topic context maxSources.
Proof.
  intro request. split.
  - unfold WikiSectionApi.generateWikiSection_params.
    destruct context as [c|]; [destruct (truthy _)|];
      try apply in_or_app; simpl; tauto.
  - repeat split; reflexivity.
Qed.

(** X11. [generateWikiSimple] always sends the four parameters [q],
    [max_sources], [format] and [include_sources], in this order: an empty
    query and a [false] flag are present values and are sent as the empty
    string and as "false", and what the call leaves out is sent with its
    default (10, html, true). *)
Theorem generateWikiSimple_sends_four_parameters
  (fetch : Request num -> Outcome (Response num))
  (query : string) (maxSources : option num) (format : option OutputFormat)
  (includeSources : option bool) :
  let request :=
    apiGet_request "/wiki/generate"
      (Some (Wiki.generateWikiSimple_params query maxSources format
               includeSources)) in
  Wiki.generateWikiSimple fetch query maxSources format includeSources
  = bind (fetch request) handleResponse
  /\ req_method request = GET
  /\ pathname (req_url request) = "/api/v1/wiki/generate"
  /\ searchParams (req_url request)
     = [("q", query);
        ("max_sources",
         match maxSources with
         | Some given => num_toString given
         | None => num_toString (num_of_Z 10)
         end);
        ("format",
         match format with
         | Some given => OutputFormat_wire given
         | None => "html"
         end);
        ("include_sources",
         match includeSources with
         | Some false => "false"
         | Some true | None => "true"
         end)].
Proof.
  intro request. split; [reflexivity|]. split; [reflexivity|].
  split; [reflexivity|].
  unfold request, apiGet_request. rewrite append_params_spec.
  unfold serialized, Wiki.generateWikiSimple_params. simpl.
  destruct maxSources, format, includeSources as [[|]|]; reflexivity.
Qed.

(** X12. The two paged requests of api/documents.ts always carry both
    [offset] and [limit], in this order and with nothing else: the values of
    the call, or 0 and 50 where the call leaves one out. For a document id
    made of letters, digits, [-], [_] and [~], which the URL keeps as it
    is, the chunks of the document are asked for under
    /api/v1/documents/, the id, and /chunks. *)
Theorem paged_requests_carry_offset_and_limit
  (fetch : Request num -> Outcome (Response num))
  (documentId : string) (offset limit : option num) :
  Paths.plain documentId = true ->
  let query :=
    [("offset",
      match offset with
      | Some given => num_toString given
      | None => num_toString (num_of_Z 0)
      end);
     ("limit",
      match limit with
      | Some given => num_toString given
      | None => num_toString (num_of_Z 50)
      end)] in
  let list_request :=
    apiGet_request "/documents" (Some (Documents.page offset limit)) in
  let chunks_request :=
    apiGet_request ("/documents/" ++ documentId ++ "/chunks")
      (Some (Documents.page offset limit)) in
  Documents.getDocuments fetch offset limit
  = bind (fetch list_request) handleResponse
  /\ Documents.getDocumentChunks fetch documentId offset limit
     = bind (fetch chunks_request) handleResponse
  /\ req_method list_request = GET
  /\ req_method chunks_request = GET
  /\ pathname (req_url list_request) = "/api/v1/documents"
  /\ pathname (req_url chunks_request)
     = ("/api/v1/documents/" ++ documentId ++ "/chunks")%string
  /\ searchParams (req_url list_request) = query
  /\ searchParams (req_url chunks_request) = query.
Proof.
  intros _ query list_request chunks_request.
  split; [reflexivity|]. split; [reflexivity|]. split; [reflexivity|].
  split; [reflexivity|]. split; [reflexivity|]. split; [reflexivity|].
  unfold list_request, chunks_request, apiGet_request.
  rewrite !append_params_spec. unfold query.
  destruct offset, limit; split; reflexivity.
Qed.

End MoreRequests.

(** ** Labels, theme, navigation and chunk expansion *)

Section Labels.
Import Paths.

Lemma string_app_assoc (a b c : string) :
  ((a ++ b) ++ c = a ++ (b ++ c))%string.
Proof. induction a as [|x a IH]; simpl; [reflexivity|now rewrite IH]. Qed.

Lemma split_not_nil (sep : ascii) (s : string) : split sep s <> [].
Proof.
  destruct s as [|c s]; simpl; [discriminate|].
  destruct (Ascii.eqb c sep); [discriminate|].
  destruct (split sep s); discriminate.
Qed.

Lemma join_cons (sep p : string) (rest : list string) :
  rest <> [] -> join sep (p :: rest) = (p ++ sep ++ join sep rest)%string.
Proof. destruct rest; [contradiction|reflexivity]. Qed.

Lemma join_split (sep : ascii) (s : string) :
  join (String sep "") (split sep s) = s.
Proof.
  induction s as [|c s IH]; [reflexivity|].
  simpl split. destruct (Ascii.eqb_spec c sep) as [->|Hc].
  - rewrite join_cons by apply split_not_nil. rewrite IH. reflexivity.
  - destruct (split sep s) as [|segment segments] eqn:E.
    + now destruct (split_not_nil sep s).
    + destruct segments as [|next more].
      * simpl in *. now rewrite IH.
      * rewrite join_cons by discriminate.
        rewrite join_cons in IH by discriminate.
        rewrite <- IH. reflexivity.
Qed.

Lemma split_segments (sep : ascii) (s : string) :
  Forall (fun segment => occurs sep segment = false) (split sep s).
Proof.
  induction s as [|c s IH]; simpl; [repeat constructor|].
  destruct (Ascii.eqb_spec c sep) as [->|Hc].
  - constructor; [reflexivity|exact IH].
  - destruct (split sep s) as [|segment segments];
      [repeat constructor; simpl|].
    + destruct (Ascii.eqb_spec c sep); [contradiction|reflexivity].
    + inversion IH as [|? ? Hseg Hrest]; subst.
      constructor; [|exact Hrest]. simpl.
      destruct (Ascii.eqb_spec c sep); [contradiction|exact Hseg].
Qed.

Lemma split_length (sep : ascii) (s : string) :
  length (split sep s)
  = S (length (filter (Ascii.eqb sep) (list_ascii_of_string s))).
Proof.
  induction s as [|c s IH]; [reflexivity|].
  simpl. rewrite (Ascii.eqb_sym sep c).
  destruct (Ascii.eqb c sep); simpl.
  - now rewrite IH.
  - destruct (split sep s); simpl in *; [discriminate|exact IH].
Qed.

(** X13. Splitting a string at a character and joining the segments with
    that character gives the string back; there is always at least one
    segment, one more than the separators in the string, and no segment
    holds the separator. *)
Theorem split_then_join_is_identity (sep : ascii) (s : string) :
  join (String sep "") (split sep s) = s
  /\ length (split sep s)
     = S (length (filter (Ascii.eqb sep) (list_ascii_of_string s)))
  /\ Forall (fun segment => occurs sep segment = false) (split sep s).
Proof.
  split; [apply join_split|]. split; [apply split_length|apply split_segments].
Qed.

Lemma pop_last (l : list string) :
  l <> [] -> exists init last, l = init ++ [last] /\ pop l = Some last.
Proof.
  induction l as [|x l IH]; [contradiction|]. intros _.
  destruct l as [|y l].
  - exists [], x. split; reflexivity.
  - destruct IH as [init [last [E Hpop]]]; [discriminate|].
    exists (x :: init), last. rewrite E. split; [reflexivity|].
    rewrite <- E. exact Hpop.
Qed.

Lemma join_snoc (sep : string) (init : list string) (last : string) :
  join sep (init ++ [last])
  = (match init with
     | [] => ""
     | _ :: _ => join sep init ++ sep
     end ++ last)%string.
Proof.
  induction init as [|x init IH]; [reflexivity|].
  simpl app. rewrite join_cons by (destruct init; discriminate).
  rewrite IH. destruct init as [|y init].
  - simpl. symmetry. apply string_app_assoc.
  - rewrite (join_cons sep x (y :: init)) by discriminate.
    now rewrite !string_app_assoc.
Qed.

(** The last segment of a path: what is left of the path is empty or ends
    with the separator. *)
Lemma pop_split (sep : ascii) (s : string) :
  exists directory name,
    pop (split sep s) = Some name
    /\ s = (directory ++ name)%string
    /\ occurs sep name = false
    /\ (directory = ""
        \/ exists d, directory = (d ++ String sep "")%string).
Proof.
  destruct (pop_last (split sep s) (split_not_nil sep s))
    as [init [name [E Hpop]]].
  pose proof (join_split sep s) as Hjoin. rewrite E, join_snoc in Hjoin.
  pose proof (split_segments sep s) as Hseg. rewrite E in Hseg.
  apply Forall_app in Hseg. destruct Hseg as [_ Hname].
  inversion Hname as [|? ? Hn _]; subst.
  exists (match init with
          | [] => ""
          | _ :: _ => join (String sep "") init ++ String sep ""
          end)%string, name.
  split; [exact Hpop|]. split; [now symmetry|]. split; [exact Hn|].
  destruct init as [|x init]; [now left|right].
  now exists (join (String sep "") (x :: init)).
Qed.

(** X14. The heading shown for a document is its title when it has a
    non-empty one; otherwise it is the part of the source path after the
    last slash, which holds no slash (the whole path when the path has
    none, nothing when the path ends with a slash). A heading is always
    defined. *)
Theorem display_title_is_title_or_file_name
  (document_title : option string) (source_path : string) :
  exists heading,
    display_title document_title source_path = Some heading
    /\ match document_title with
       | Some (String c t) => heading = String c t
       | Some EmptyString | None =>
           occurs "/" heading = false
           /\ exists directory,
               source_path = (directory ++ heading)%string
               /\ (directory = ""
                   \/ exists d, directory = (d ++ "/")%string)
       end.
Proof.
  destruct (pop_split "/" source_path)
    as [directory [name [Hpop [Hpath [Hname Hdir]]]]].
  unfold display_title.
  destruct document_title as [[|c t]|]; simpl.
  - exists name. split; [exact Hpop|]. split; [exact Hname|].
    now exists directory.
  - exists (String c t). split; reflexivity.
  - exists name. split; [exact Hpop|]. split; [exact Hname|].
    now exists directory.
Qed.

End Labels.

(** X15. The initial theme is always light or dark, whatever the storage
    holds: a stored light or dark is used as it is and the system
    preference is not consulted; anything else stored, or nothing, gives
    light when the system prefers light and dark otherwise. The class
    [dark] is set exactly when the theme is dark. *)
Theorem getInitialTheme_is_light_or_dark
  (stored : option string) (prefersLight : bool) :
  (Theme.getInitialTheme stored prefersLight = "light"
   \/ Theme.getInitialTheme stored prefersLight = "dark")
  /\ (Theme.getInitialTheme stored prefersLight
      = if match stored with
           | Some theme => (theme =? "light") || (theme =? "dark")
           | None => false
           end
        then Theme.getInitialTheme stored (negb prefersLight)
        else if prefersLight then "light" else "dark")
  /\ Theme.getInitialTheme (Some "light") prefersLight = "light"
  /\ Theme.getInitialTheme (Some "dark") prefersLight = "dark"
  /\ Theme.adds_dark_class stored prefersLight
     = negb (Theme.getInitialTheme stored prefersLight =? "light").
Proof.
  unfold Theme.adds_dark_class, Theme.getInitialTheme.
  destruct stored as [theme|].
  - destruct (String.eqb_spec theme "light") as [->|Hl];
      [destruct prefersLight; simpl; tauto|].
    destruct (String.eqb_spec theme "dark") as [->|Hd];
      [destruct prefersLight; simpl; tauto|].
    destruct prefersLight; simpl; tauto.
  - destruct prefersLight; simpl; tauto.
Qed.

(** X17. For every location, the header and the drawer highlight the same
    destination, and never more than one: an item is active exactly when
    the location is its path, letter for letter, so a location below a
    destination, such as /documents/d1, highlights none. *)
Theorem navigation_highlights_at_most_one_item (pathname : string) :
  map fst (filter (Nav.isActive pathname) Nav.Header_navItems)
  = map fst (filter (Nav.isActive pathname) Nav.Sidebar_navItems)
  /\ (length (filter (Nav.isActive pathname) Nav.Header_navItems) <= 1)%nat
  /\ map fst (filter (Nav.isActive pathname) Nav.Header_navItems)
     = (if existsb (String.eqb pathname)
             ["/"; "/documents"; "/search"; "/wiki"]
        then [pathname] else []).
Proof.
  unfold Nav.isActive, Nav.Header_navItems, Nav.Sidebar_navItems. simpl.
  destruct (String.eqb_spec pathname "/") as [->|H1];
    [simpl; repeat split; lia|].
  destruct (String.eqb_spec pathname "/documents") as [->|H2];
    [simpl; repeat split; lia|].
  destruct (String.eqb_spec pathname "/search") as [->|H3];
    [simpl; repeat split; lia|].
  destruct (String.eqb_spec pathname "/wiki") as [->|H4];
    [simpl; repeat split; lia|].
  simpl. repeat split; lia.
Qed.

Section Chunks.
Import DocumentDetail.

Lemma has_In (s : list nat) (i : nat) : has s i = true <-> In i s.
Proof.
  unfold has. rewrite existsb_exists. split.
  - intros [x [Hx E]]. apply Nat.eqb_eq in E. now subst.
  - intro Hi. exists i. split; [assumption|apply Nat.eqb_refl].
Qed.

Lemma has_delete (s : list nat) (i j : nat) :
  has (delete s i) j = has s j && negb (i =? j)%nat.
Proof.
  unfold has, delete. induction s as [|x s IH]; simpl; [reflexivity|].
  destruct (Nat.eqb_spec x i) as [->|Hxi]; simpl.
  - rewrite IH. destruct (Nat.eqb_spec i j); simpl; [|reflexivity].
    now rewrite andb_false_r.
  - rewrite IH. destruct (Nat.eqb_spec x j) as [->|Hxj]; simpl;
      [|reflexivity].
    destruct (Nat.eqb_spec i j); [congruence|reflexivity].
Qed.

Lemma has_toggleChunk (s : list nat) (i j : nat) :
  has (toggleChunk s i) j = xorb (has s j) (i =? j)%nat.
Proof.
  unfold toggleChunk, add. cbv zeta. destruct (has s i) eqn:Hi.
  - rewrite has_delete. destruct (Nat.eqb_spec i j) as [->|Hij].
    + rewrite Hi. reflexivity.
    + now rewrite andb_true_r, xorb_false_r.
  - unfold has in *. rewrite existsb_app. simpl. rewrite orb_false_r.
    destruct (Nat.eqb_spec i j) as [->|Hij].
    + now rewrite Hi.
    + now rewrite orb_false_r, xorb_false_r.
Qed.

(** X16. A click on a chunk flips whether that chunk is expanded and
    leaves every other chunk as it was; a second click on the same chunk
    gives back the first set, and a set without repetition stays one. *)
Theorem toggleChunk_flips_one_chunk (prev : list nat) (index j : nat) :
  has (toggleChunk prev index) j = xorb (has prev j) (index =? j)%nat
  /\ has (toggleChunk (toggleChunk prev index) index) j = has prev j
  /\ (NoDup prev -> NoDup (toggleChunk prev index))
  /\ (NoDup prev -> has prev index = false ->
      toggleChunk (toggleChunk prev index) index = prev).
Proof.
  split; [apply has_toggleChunk|]. split; [|split].
  - rewrite !has_toggleChunk. now destruct (has prev j), (index =? j)%nat.
  - intro Hnd. unfold toggleChunk, add, delete. cbv zeta.
    destruct (has prev index) eqn:Hi.
    + now apply NoDup_filter.
    + apply NoDup_app; [assumption|repeat constructor; simpl; tauto|].
      intros a Ha [<-|[]]. apply has_In in Ha. congruence.
  - intros Hnd Hi. unfold toggleChunk at 2. unfold add. cbv zeta.
    rewrite Hi. unfold toggleChunk. cbv zeta.
    assert (Hnew : has (prev ++ [index]) index = true).
    { unfold has. rewrite existsb_app. simpl.
      now rewrite Nat.eqb_refl, orb_true_r. }
    rewrite Hnew. unfold delete. rewrite filter_app. simpl.
    rewrite Nat.eqb_refl. simpl. rewrite app_nil_r.
    clear Hnew Hnd. induction prev as [|x prev IH]; [reflexivity|].
    simpl in *. destruct (Nat.eqb_spec x index) as [->|Hx];
      [discriminate Hi|]. simpl. f_equal. apply IH. exact Hi.
Qed.

End Chunks.

(** ** Runs of the properties that have a precondition *)

(** X1 on a list with one pending and one uploaded entry, and two networks
    that differ on every request but the batch request. *)
Lemma handleUpload_sends_the_pending_files_run :
  let entry name status :=
    {| UploadZone.up_file := {| file_name := name; file_size := 1%Z |};
       UploadZone.up_status := status;
       UploadZone.up_result := @None (IngestResponse Z);
       UploadZone.up_error := None |} in
  let files := [entry "a.pdf" UploadZone.pending;
                entry "b.txt" UploadZone.success] in
  let down : Outcome (Response Z) := Rejected TypeError in
  let up : Outcome (Response Z) :=
    Resolved {| resp_ok := true; resp_status := 200%Z; resp_statusText := "OK";
                resp_json := Some (JsArray []) |} in
  let fetch := fun _ : Request Z => down in
  let fetch' := fun r : Request Z =>
                  match req_method r with POST => down | _ => up end in
  let cast := fun _ : JsValue Z => @nil (IngestResponse Z) in
  fetch (apiUploadMultiple_request "/ingest/batch"
           (map UploadZone.up_file (UploadZone.pendingFiles files)))
  = fetch' (apiUploadMultiple_request "/ingest/batch"
              (map UploadZone.up_file (UploadZone.pendingFiles files)))
  /\ UploadZone.handleUpload (Documents.uploadDocuments fetch cast) files
     = UploadZone.handleUpload (Documents.uploadDocuments fetch' cast) files.
Proof.
  intros entry files down up fetch fetch' cast.
  split; [reflexivity|].
  exact (proj2 (proj2 (proj2
           (handleUpload_sends_the_pending_files cast fetch fetch' files
              eq_refl)))).
Defined.

(** X2 on a batch that the server refuses as too large. *)
Lemma failed_batch_marks_every_pending_file_run :
  let entry name status :=
    {| UploadZone.up_file := {| file_name := name; file_size := 1%Z |};
       UploadZone.up_status := status;
       UploadZone.up_result := @None (IngestResponse Z);
       UploadZone.up_error := None |} in
  let files := [entry "a.pdf" UploadZone.pending;
                entry "b.txt" UploadZone.success] in
  let response :=
    {| resp_ok := false; resp_status := 413%Z;
       resp_statusText := "Payload Too Large";
       resp_json := Some (JsObject [("detail", JsString "File too large")]) |} in
  let fetch := fun _ : Request Z => Resolved response in
  let cast := fun _ : JsValue Z => @nil (IngestResponse Z) in
  UploadZone.pendingFiles files <> []
  /\ fetch (apiUploadMultiple_request "/ingest/batch"
              (map UploadZone.up_file (UploadZone.pendingFiles files)))
     = Resolved response
  /\ resp_ok response = false
  /\ nth_error files 0 = Some (entry "a.pdf" UploadZone.pending)
  /\ option_map UploadZone.up_error
       (nth_error
          (UploadZone.handleUpload (Documents.uploadDocuments fetch cast) files)
          0)
     = Some (Some "ApiError: File too large").
Proof.
  intros entry files response fetch cast.
  assert (Hne : UploadZone.pendingFiles files <> []) by discriminate.
  split; [exact Hne|]. split; [reflexivity|]. split; [reflexivity|].
  split; [reflexivity|].
  rewrite (failed_batch_marks_every_pending_file cast fetch files response 0
             (entry "a.pdf" UploadZone.pending) Hne eq_refl eq_refl eq_refl).
  reflexivity.
Defined.

(** X8 on a run that clicks the HTML checkbox once and the PDF checkbox
    twice. *)
Lemma checkbox_is_checked_after_odd_clicks_run :
  nth_error SearchFilters.DOCUMENT_TYPES 4 = Some (html, "HTML")
  /\ SearchFilters.includes (SearchPage.selection_after [0; 4; 0; 6; 9]%nat) html
     = true.
Proof.
  split; [reflexivity|].
  exact (checkbox_is_checked_after_odd_clicks [0; 4; 0; 6; 9]%nat 4 html
           "HTML" eq_refl).
Defined.

(** X9 on a filtered search that the server fails. *)
Lemma searchSimple_failure_depends_on_the_filter_run :
  let response :=
    {| resp_ok := false; resp_status := 500%Z;
       resp_statusText := "Internal Server Error";
       resp_json := Some (JsObject [("detail", JsString "index offline")]) |} in
  let fetch := fun _ : Request Z => Resolved response in
  fetch (Search.searchSimple_request "rivers" None None (Some [pdf]))
  = Resolved response
  /\ Search.searchSimple fetch "rivers" None None (Some [pdf])
     = Rejected (Error "Search failed: Internal Server Error").
Proof.
  intros response fetch. split; [reflexivity|].
  exact (searchSimple_failure_depends_on_the_filter fetch "rivers" None None
           (Some [pdf]) response eq_refl).
Defined.

(** X12 on the chunks of a document with an id of hexadecimal digits and
    dashes, from the second page of twenty. *)
Lemma paged_requests_carry_offset_and_limit_run :
  let fetch := fun _ : Request Z => @Rejected (Response Z) TypeError in
  Paths.plain "3f2a-91bc" = true
  /\ pathname
       (req_url
          (apiGet_request "/documents/3f2a-91bc/chunks"
             (Some (Documents.page (Some 20%Z) (Some 20%Z)))))
     = "/api/v1/documents/3f2a-91bc/chunks"
  /\ searchParams
       (req_url
          (apiGet_request "/documents/3f2a-91bc/chunks"
             (Some (Documents.page (Some 20%Z) (Some 20%Z)))))
     = [("offset", "20"); ("limit", "20")].
Proof.
  intro fetch. split; [reflexivity|].
  pose proof (paged_requests_carry_offset_and_limit fetch "3f2a-91bc"
                (Some 20%Z) (Some 20%Z) eq_refl) as H.
  cbv zeta in H.
  destruct H as [_ [_ [_ [_ [_ [Hpath [_ Hquery]]]]]]].
  split; [exact Hpath|exact Hquery].
Defined.
